(** * Commit procedure and status command of dolt: a shallow embedding

    Two Go files are embedded here:
    - package [dprocedures]: [doltCommit], [doltCommitHashOut], [doDoltCommit];
    - package [commands] (status.go): [Exec], [PrintStatus],
      [handleStatusVErr], [printRemoteRefTrackingInfo],
      [countCommitsInRange], [getRemoteTrackingMsg].

    Collaborators that live in other packages (argument parser, session,
    commit graph, printers) are fields of a record of responses; every call
    that matters to a caller is also written to a log of events, so that
    "was never called" and "was called with these arguments" are statements
    about the log. *)

From Stdlib Require Import ZArith String Ascii List Lia.
From stdpp Require Import base option list strings gmap pretty.

Local Open Scope string_scope.
Local Open Scope list_scope.

(** ** Go values *)

(** An [error] of a collaborator is kept as its [Error()] text. *)
Definition ext_error : Type := string.

(** The error values the two files can return: one handed over unchanged
    from a collaborator, [errors.New(text)], or [fmt.Errorf(format, a...)]
    (kept unformatted). *)
Inductive error : Type :=
| Ext (e : ext_error)
| errors_New (text : string)
| fmt_Errorf (format : string) (a : list string).

(** Go's [int] on a 64-bit platform: [count += 1] wraps around. *)
Definition int_bits : Z := 64.
Definition max_int : Z := 2 ^ (int_bits - 1) - 1.
Definition wrap_int (z : Z) : Z :=
  (z + 2 ^ (int_bits - 1)) mod 2 ^ int_bits - 2 ^ (int_bits - 1).

(** [%v] of an [int]: decimal, with a leading minus sign. *)
Definition itoa (z : Z) : string := pretty z.

Definition NL : string := String "010"%char EmptyString.
Definition DQ : string := String "034"%char EmptyString.

(** ** Function bodies with early return and a log

    A body of result type [R] runs against the log written so far. It
    either has executed a [return r] ([inl r]) or goes on with a value. *)
Section Body.
Context {Ev R : Type}.

Definition Body (A : Type) : Type := list Ev -> (R + A) * list Ev.

Definition pure {A} (a : A) : Body A := fun tr => (inr a, tr).
Definition Return {A} (r : R) : Body A := fun tr => (inl r, tr).
Definition bind {A B} (m : Body A) (k : A -> Body B) : Body B :=
  fun tr => match m tr with
            | (inl r, tr') => (inl r, tr')
            | (inr a, tr') => k a tr'
            end.
Definition emit (e : Ev) : Body unit := fun tr => (inr tt, tr ++ [e]).

(** [x, err := f(); if err != nil { return on_err(err) }] *)
Definition try {A} (x : ext_error + A) (on_err : ext_error -> R) : Body A :=
  match x with
  | inl e => Return (on_err e)
  | inr a => pure a
  end.

(** The whole function: the log starts where the caller left it. *)
Definition exec (m : Body R) (tr : list Ev) : R * list Ev :=
  match m tr with
  | (inl r, tr') => (r, tr')
  | (inr r, tr') => (r, tr')
  end.
End Body.

Arguments Body : clear implicits.

(** A call of a function of result type [R'] from a body of result type [R]. *)
Definition call {Ev R R'} (f : Body Ev R' R') : Body Ev R R' :=
  fun tr => let '(r, tr') := exec f tr in (inr r, tr').

(** A body only ever appends to the log. *)
Definition appends {Ev R A} (m : Body Ev R A) : Prop :=
  forall tr, exists out, (m tr).2 = tr ++ out.

Declare Scope body_scope.
Delimit Scope body_scope with body.
Notation "'let*' x ':=' m 'in' k" := (bind m (fun x => k))
  (at level 10, x pattern, m at level 100, k at level 200) : body_scope.
Notation "m ';;' k" := (bind m (fun _ => k))
  (at level 100, k at level 200, right associativity) : body_scope.

(** Running a function from an empty log. *)
Definition run {Ev R} (m : Body Ev R R) : R * list Ev := exec m [].

(** ** Parsed arguments

    [argparser.ArgParseResults] is read through two methods only. *)
Record ArgParseResults : Type := {
  Contains : string -> bool;
  GetValue : string -> option string;
}.

(** * Package commands: status.go *)
Module commands.

(** ** getRemoteTrackingMsg *)
Definition getRemoteTrackingMsg (remoteBranchName : string) (ahead behind : Z) : string :=
  if bool_decide (ahead > 0)%Z && bool_decide (behind > 0)%Z then
    "Your branch and '" +:+ remoteBranchName +:+ "' have diverged," +:+ NL +:+
    "and have " +:+ itoa ahead +:+ " and " +:+ itoa behind +:+
    " different commits each, respectively." +:+ NL +:+
    "  (use " +:+ DQ +:+ "dolt pull" +:+ DQ +:+ " to update your local branch)"
  else if bool_decide (ahead > 0)%Z then
    let s := if bool_decide (ahead > 1)%Z then "s" else "" in
    "Your branch is ahead of '" +:+ remoteBranchName +:+ "' by " +:+
    itoa ahead +:+ " commit" +:+ s +:+ "." +:+ NL +:+
    "  (use " +:+ DQ +:+ "dolt push" +:+ DQ +:+ " to publish your local commits)"
  else if bool_decide (behind > 0)%Z then
    let s := if bool_decide (behind > 1)%Z then "s" else "" in
    "Your branch is behind '" +:+ remoteBranchName +:+ "' by " +:+
    itoa behind +:+ " commit" +:+ s +:+ ", and can be fast-forwarded." +:+ NL +:+
    "  (use " +:+ DQ +:+ "dolt pull" +:+ DQ +:+ " to update your local branch)"
  else
    "Your branch is up to date with '" +:+ remoteBranchName +:+ "'.".

(** The four message forms as the contract of the status report words
    them (not taken from the code): which form applies to a pair of counts,
    and the text of each, with "commit" for a count of one and "commits"
    otherwise. The diverged form speaks of both counts together and reads
    "commits". *)
Inductive form : Type := Diverged | AheadOnly | BehindOnly | UpToDate.

Definition spec_form (ahead behind : Z) : form :=
  match (ahead ?= 0)%Z, (behind ?= 0)%Z with
  | Gt, Gt => Diverged
  | Gt, _ => AheadOnly
  | _, Gt => BehindOnly
  | _, _ => UpToDate
  end.

Definition spec_commits (n : Z) : string :=
  if bool_decide (n = 1%Z) then "commit" else "commits".

Definition spec_text (f : form) (name : string) (ahead behind : Z) : string :=
  match f with
  | Diverged =>
      "Your branch and '" +:+ name +:+ "' have diverged," +:+ NL +:+
      "and have " +:+ itoa ahead +:+ " and " +:+ itoa behind +:+
      " different commits each, respectively." +:+ NL +:+
      "  (use " +:+ DQ +:+ "dolt pull" +:+ DQ +:+ " to update your local branch)"
  | AheadOnly =>
      "Your branch is ahead of '" +:+ name +:+ "' by " +:+ itoa ahead +:+ " " +:+
      spec_commits ahead +:+ "." +:+ NL +:+
      "  (use " +:+ DQ +:+ "dolt push" +:+ DQ +:+ " to publish your local commits)"
  | BehindOnly =>
      "Your branch is behind '" +:+ name +:+ "' by " +:+ itoa behind +:+ " " +:+
      spec_commits behind +:+ ", and can be fast-forwarded." +:+ NL +:+
      "  (use " +:+ DQ +:+ "dolt pull" +:+ DQ +:+ " to update your local branch)"
  | UpToDate => "Your branch is up to date with '" +:+ name +:+ "'."
  end.

(** ** The collaborators of the status command *)

(** What [itr.Next] hands out before [io.EOF]: a commit hash, or an error
    other than [io.EOF]. The iterator is the finite list of these; the end
    of the list is [io.EOF]. *)
Inductive next_result (Hash : Type) : Type :=
| Yield (h : Hash)
| Fail (e : ext_error).
Arguments Yield {Hash} h.
Arguments Fail {Hash} e.

(** Text handed to [cli.Println]: a string built in this file, or
    [fmt.Sprintf] of a format constant declared elsewhere in the package. *)
Inductive text : Type :=
| Lit (s : string)
| Sprintf (format : string) (a : list string).

Section Status.
Context {Hash : Type} `{EqDecision Hash}.
Context {Commit Ref Remote CommitSpec : Type}.
Context {RootsT TableDelta WorkingSetT ArtifactStatus SqlContext : Type}.

(** [env.BranchConfig]: [Merge] stands for [upstream.Merge.Ref]. *)
Record BranchConfig : Type := {
  Merge : Ref;
  Remote_ : string;
}.

Inductive event : Type :=
| Printf (format : string) (a : list string)
| Println (t : text)
| PrintErrln (s : string)
| closeFunc
| GetCommitAncestor_called (a b : Commit)
| GetTopologicalOrderIterator_called (start : Hash)
| printStagedDiffs_called (tbls : list TableDelta) (printHelp : bool)
| PrintDiffsNotStaged_called (tbls : list TableDelta) (printHelp showIgnored : bool)
    (n : Z) (stat : ArtifactStatus).

Record Collaborators : Type := {
  (* package cli, errhand *)
  QueryEngine : ext_error + (SqlContext * bool);  (* the flag: closeFunc != nil *)
  ParseArgsOrDie : list string -> Z + ArgParseResults;  (* inl code: os.Exit(code) *)
  ShowIgnoredFlag : string;
  Verbose : error -> string;
  (* dEnv and its RepoStateReader *)
  Roots : ext_error + RootsT;
  WorkingSet : WorkingSetT * option ext_error;
  CWBHeadRef : ext_error + Ref;
  GetBranches : ext_error + gmap string BranchConfig;
  GetRemotes : ext_error + gmap string Remote;
  GetTrackingRef : Ref -> Remote -> ext_error + Ref;
  isMergeActive : ext_error + bool;
  (* package ref *)
  GetPath : Ref -> string;
  (* packages diff and merge *)
  GetStagedUnstagedTableDeltas : RootsT -> ext_error + (list TableDelta * list TableDelta);
  GetMergeArtifactStatus : WorkingSetT -> ArtifactStatus * option ext_error;
  HasConflicts : ArtifactStatus -> bool;
  HasConstraintViolations : ArtifactStatus -> bool;
  (* package doltdb and commitwalk *)
  NewCommitSpec : string -> ext_error + CommitSpec;
  Resolve : CommitSpec -> Ref -> ext_error + Commit;
  HashOf : Commit -> ext_error + Hash;
  GetCommitAncestor : Commit -> Commit -> ext_error + Commit;
  GetTopologicalOrderIterator : Hash -> ext_error + list (next_result Hash);
  (* the rest of package commands *)
  branchHeader : string;
  unmergedTablesHeader : string;
  allMergedHeader : string;
  printStagedDiffs : list TableDelta -> bool -> Z;
  PrintDiffsNotStaged :
    SqlContext -> list TableDelta -> bool -> bool -> Z -> ArtifactStatus -> ext_error + Z;
}.

Variable dEnv : Collaborators.

Local Open Scope body_scope.

(** ** countCommitsInRange *)

(** The [for] loop, lines 247-259, with [return count, nil] after it. *)
Fixpoint countLoop (itr : list (next_result Hash)) (targetCommitHash : Hash)
    (count : Z) : Z * option error :=
  match itr with
  | [] => (0%Z, Some (errors_New "no match found to ancestor commit"))
  | Fail e :: _ => (0%Z, Some (Ext e))
  | Yield hash :: itr' =>
      if decide (hash = targetCommitHash) then (count, None)
      else countLoop itr' targetCommitHash (wrap_int (count + 1))
  end.

Definition countCommitsInRange (startCommitHash targetCommitHash : Hash)
  : Body event (Z * option error) (Z * option error) :=
  emit (GetTopologicalOrderIterator_called startCommitHash) ;;
  let* itr := try (GetTopologicalOrderIterator dEnv startCommitHash)
                  (fun iErr => (0%Z, Some (Ext iErr))) in
  Return (countLoop itr targetCommitHash 0).

(** ** printRemoteRefTrackingInfo *)

(** Lines 222-233: the two counters. A [return err] in here leaves
    [printRemoteRefTrackingInfo]. *)
Definition aheadBehind (headHash remoteHash ancHash : Hash)
  : Body event (option error) (Z * Z) :=
  let ahead := 0%Z in
  let behind := 0%Z in
  if decide (headHash <> remoteHash) then
    let* (behind, err) := call (countCommitsInRange remoteHash ancHash) in
    match err with
    | Some err => Return (Some err)
    | None =>
        let* (ahead, err) := call (countCommitsInRange headHash ancHash) in
        match err with
        | Some err => Return (Some err)
        | None => pure (ahead, behind)
        end
    end
  else pure (ahead, behind).

Definition printRemoteRefTrackingInfo : Body event (option error) (option error) :=
  let on_err := fun err => Some (Ext err) in
  let* headRef := try (CWBHeadRef dEnv) on_err in
  let* branches := try (GetBranches dEnv) on_err in
  match branches !! GetPath dEnv headRef with
  | None => Return None
  | Some upstream =>
      (* Get local head branch *)
      let* headCommitSpec := try (NewCommitSpec dEnv (GetPath dEnv headRef)) on_err in
      let* headCommit := try (Resolve dEnv headCommitSpec headRef) on_err in
      let* headHash := try (HashOf dEnv headCommit) on_err in
      (* Get remote tracking branch *)
      let* remotes := try (GetRemotes dEnv) on_err in
      match remotes !! Remote_ upstream with
      | None => Return None
      | Some remote =>
          let* remoteTrackingRef := try (GetTrackingRef dEnv (Merge upstream) remote) on_err in
          let* remoteCommitSpec :=
            try (NewCommitSpec dEnv (GetPath dEnv remoteTrackingRef)) on_err in
          let* remoteCommit := try (Resolve dEnv remoteCommitSpec remoteTrackingRef) on_err in
          let* remoteHash := try (HashOf dEnv remoteCommit) on_err in
          (* get common ancestor *)
          emit (GetCommitAncestor_called headCommit remoteCommit) ;;
          let* ancCommit := try (GetCommitAncestor dEnv headCommit remoteCommit) on_err in
          let* ancHash := try (HashOf dEnv ancCommit) on_err in
          let* (ahead, behind) := aheadBehind headHash remoteHash ancHash in
          emit (Println (Lit (getRemoteTrackingMsg (GetPath dEnv remoteTrackingRef)
                                ahead behind))) ;;
          Return None
      end
  end.

(** The walk from [start] hands out the hashes [pre], none of them the
    target, and then the target; [pre] is short enough to be counted by an
    [int]. *)
Definition walks_to (start target : Hash) (pre : list Hash) : Prop :=
  exists rest,
    GetTopologicalOrderIterator dEnv start = inr (map Yield pre ++ Yield target :: rest)
    /\ (target ∉ pre)
    /\ (Z.of_nat (length pre) <= max_int)%Z.

(** Lines 157-210 went through: the branch has an upstream on a known
    remote, and both heads were resolved and hashed. *)
Inductive HeadsResolved (headCommit : Commit) (headHash : Hash) (remoteTrackingRef : Ref)
    (remoteCommit : Commit) (remoteHash : Hash) : Prop :=
| heads_resolved (headRef : Ref) (branches : gmap string BranchConfig)
    (upstream : BranchConfig) (headCommitSpec : CommitSpec)
    (remotes : gmap string Remote) (remote : Remote) (remoteCommitSpec : CommitSpec) :
    CWBHeadRef dEnv = inr headRef ->
    GetBranches dEnv = inr branches ->
    branches !! GetPath dEnv headRef = Some upstream ->
    NewCommitSpec dEnv (GetPath dEnv headRef) = inr headCommitSpec ->
    Resolve dEnv headCommitSpec headRef = inr headCommit ->
    HashOf dEnv headCommit = inr headHash ->
    GetRemotes dEnv = inr remotes ->
    remotes !! Remote_ upstream = Some remote ->
    GetTrackingRef dEnv (Merge upstream) remote = inr remoteTrackingRef ->
    NewCommitSpec dEnv (GetPath dEnv remoteTrackingRef) = inr remoteCommitSpec ->
    Resolve dEnv remoteCommitSpec remoteTrackingRef = inr remoteCommit ->
    HashOf dEnv remoteCommit = inr remoteHash ->
    HeadsResolved headCommit headHash remoteTrackingRef remoteCommit remoteHash.

(** ** handleStatusVErr *)
Definition handleStatusVErr {R} (err : error) : Body event R Z :=
  emit (PrintErrln (Verbose dEnv err)) ;;
  pure 1%Z.

(** ** PrintStatus *)
Definition PrintStatus (sqlCtx : SqlContext) (stagedTbls notStagedTbls : list TableDelta)
    (showIgnoredTables : bool) (stat : ArtifactStatus)
  : Body event (option error) (option error) :=
  let on_err := fun err => Some (Ext err) in
  let* headRef := try (CWBHeadRef dEnv) on_err in
  emit (Printf (branchHeader dEnv) [GetPath dEnv headRef]) ;;
  let* err := call printRemoteRefTrackingInfo in
  match err with
  | Some err => Return (Some err)
  | None =>
      let* mergeActive := try (isMergeActive dEnv) on_err in
      (if mergeActive then
         if HasConflicts dEnv stat && HasConstraintViolations dEnv stat then
           emit (Println (Sprintf (unmergedTablesHeader dEnv)
                            ["conflicts and constraint violations"]))
         else if HasConflicts dEnv stat then
           emit (Println (Sprintf (unmergedTablesHeader dEnv) ["conflicts"]))
         else if HasConstraintViolations dEnv stat then
           emit (Println (Sprintf (unmergedTablesHeader dEnv) ["constraint violations"]))
         else
           emit (Println (Lit (allMergedHeader dEnv)))
       else pure tt) ;;
      emit (printStagedDiffs_called stagedTbls true) ;;
      let n := printStagedDiffs dEnv stagedTbls true in
      emit (PrintDiffsNotStaged_called notStagedTbls true showIgnoredTables n stat) ;;
      let* n := try (PrintDiffsNotStaged dEnv sqlCtx notStagedTbls true
                       showIgnoredTables n stat) on_err in
      (if negb mergeActive && bool_decide (n = 0%Z) then
         emit (Println (Lit "nothing to commit, working tree clean"))
       else pure tt) ;;
      Return None
  end.

(** ** Exec *)

(** How the process leaves [Exec]: by [return], after which the deferred
    [closeFunc] runs, or by [os.Exit] inside [cli.ParseArgsOrDie]. *)
Inductive outcome : Type :=
| Returned (code : Z)
| Exited (code : Z).

(** Lines 76-104, after the [defer]. *)
Definition ExecBody (sqlCtx : SqlContext) (args : list string)
  : Body event outcome outcome :=
  let* apr := match ParseArgsOrDie dEnv args with
              | inl code => Return (Exited code)
              | inr apr => pure apr
              end in
  let* roots := match Roots dEnv with
                | inl err => let* c := handleStatusVErr (Ext err) in Return (Returned c)
                | inr roots => pure roots
                end in
  let* (staged, notStaged) :=
    match GetStagedUnstagedTableDeltas dEnv roots with
    | inl err => let* c := handleStatusVErr (Ext err) in Return (Returned c)
    | inr d => pure d
    end in
  let '(ws, err) := WorkingSet dEnv in
  match err with
  | Some err => let* _ := handleStatusVErr (Ext err) in pure tt
  | None => pure tt
  end ;;
  let '(stat, err) := GetMergeArtifactStatus dEnv ws in
  match err with
  | Some err => let* _ := handleStatusVErr (Ext err) in pure tt
  | None => pure tt
  end ;;
  let* err := call (PrintStatus sqlCtx staged notStaged
                      (Contains apr (ShowIgnoredFlag dEnv)) stat) in
  match err with
  | Some err => let* c := handleStatusVErr err in Return (Returned c)
  | None => Return (Returned 0%Z)
  end.

Definition Exec (commandStr : string) (args : list string) : Body event outcome outcome :=
  match QueryEngine dEnv with
  | inl err =>
      emit (Println (Lit err)) ;;
      Return (Returned 1%Z)
  | inr (sqlCtx, hasCloseFunc) =>
      let* out := call (ExecBody sqlCtx args) in
      match out with
      | Returned code =>
          (if hasCloseFunc then emit closeFunc else pure tt) ;;
          Return (Returned code)
      | Exited code => Return (Exited code)
      end
  end.

(** What [Exec] has written to the error stream for the errors of
    [dEnv.WorkingSet] and [merge.GetMergeArtifactStatus] when it reaches
    line 100. *)
Definition reported (err : option ext_error) : list event :=
  match err with
  | Some err => [PrintErrln (Verbose dEnv (Ext err))]
  | None => []
  end.

End Status.
End commands.

(** * Package dprocedures: the commit procedure *)
Module dprocedures.

(** [actions.CommitStagedProps], as filled in at lines 139-148. *)
Record CommitStagedProps {Time : Type} : Type := {
  Message : string;
  Date : Time;
  AllowEmpty : bool;
  SkipEmpty : bool;
  Amend : bool;
  Force : bool;
  Name : string;
  Email : string;
}.
Arguments CommitStagedProps : clear implicits.

(** Modelled from the spec: the metadata of a commit, which the data model
    gives as author, email, timestamp and description; its declaration is in
    another package. *)
Record CommitMeta {Time : Type} : Type := {
  meta_Name : string;
  meta_Email : string;
  meta_Timestamp : Time;
  Description : string;
}.
Arguments CommitMeta : clear implicits.

(** [ctx.Client()] *)
Record Client : Type := {
  User : string;
  Address : string;
}.

(** A [sql.RowIter]: [None] is the nil iterator, otherwise the rows. *)
Definition RowIter : Type := option (list (list string)).

(** Modelled from the spec: [rowToIter] is declared in another file of the
    package; the result is "a single output row containing the commit
    hash". *)
Definition rowToIter (v : string) : RowIter := Some [[v]].

Section Commit.
Context {Hash Commit Roots PendingCommit Time Transaction : Type}.

Inductive event : Type :=
| NewPendingCommit_called (dbName : string) (roots : Roots) (props : CommitStagedProps Time)
| DoltCommit_called (dbName : string) (tx : Transaction) (pending : PendingCommit).

Record Collaborators : Type := {
  (* package branch_control *)
  CheckAccess : option ext_error;
  (* the sql context *)
  GetCurrentDatabase : string;
  GetClient : Client;
  QueryTime : Time;
  (* package cli *)
  Parse : list string -> ext_error + ArgParseResults;
  VerifyCommitArgs : ArgParseResults -> option ext_error;
  ParseAuthor : string -> ext_error + (string * string);
  ParseDate : string -> ext_error + Time;
  AllFlag : string;
  UpperCaseAllFlag : string;
  AuthorParam : string;
  AmendFlag : string;
  MessageArg : string;
  DateParam : string;
  AllowEmptyFlag : string;
  SkipEmptyFlag : string;
  ForceFlag : string;
  (* package actions *)
  StageAllTables : Roots -> bool -> ext_error + Roots;
  StageModifiedAndDeletedTables : Roots -> ext_error + Roots;
  (* the dolt session *)
  GetRoots : string -> option Roots;
  GetHeadCommit : string -> ext_error + Commit;
  NewPendingCommit :
    string -> Roots -> CommitStagedProps Time -> ext_error + option PendingCommit;
  GetTransaction : Transaction;
  DoltCommit : string -> Transaction -> PendingCommit -> ext_error + Commit;
  (* package doltdb and hash *)
  GetCommitMeta : Commit -> ext_error + CommitMeta Time;
  HashOf : Commit -> ext_error + Hash;
  HashString : Hash -> string;
}.

Variable ctx : Collaborators.

Local Open Scope body_scope.

(** ** doDoltCommit *)
Definition doDoltCommit (args : list string)
  : Body event (string * bool * option error) (string * bool * option error) :=
  let fail := fun err : ext_error => ("", false, Some (Ext err)) in
  match CheckAccess ctx with
  | Some err => Return ("", false, Some (Ext err))
  | None => pure tt
  end ;;
  (* Get the information for the sql context. *)
  let dbName := GetCurrentDatabase ctx in
  let* apr := try (Parse ctx args) fail in
  match VerifyCommitArgs ctx apr with
  | Some err => Return ("", false, Some (Ext err))
  | None => pure tt
  end ;;
  let* roots :=
    match GetRoots ctx dbName with
    | None => Return ("", false, Some (fmt_Errorf "Could not load database %s" [dbName]))
    | Some roots => pure roots
    end in
  let* roots :=
    if Contains apr (UpperCaseAllFlag ctx) then
      try (StageAllTables ctx roots true)
          (fun err => ("", false, Some (fmt_Errorf err [])))
    else if Contains apr (AllFlag ctx) then
      try (StageModifiedAndDeletedTables ctx roots)
          (fun err => ("", false, Some (fmt_Errorf err [])))
    else pure roots in
  let* (name, email) :=
    match GetValue apr (AuthorParam ctx) with
    | Some authorStr => try (ParseAuthor ctx authorStr) fail
    | None =>
        (* In SQL mode, use the current SQL user as the commit author. *)
        pure (User (GetClient ctx),
              User (GetClient ctx) +:+ "@" +:+ Address (GetClient ctx))
    end in
  let amend := Contains apr (AmendFlag ctx) in
  let* msg :=
    match GetValue apr (MessageArg ctx) with
    | Some msg => pure msg
    | None =>
        if amend then
          let* commit := try (GetHeadCommit ctx dbName) fail in
          let* commitMeta := try (GetCommitMeta ctx commit) fail in
          pure (Description commitMeta)
        else Return ("", false, Some (fmt_Errorf "Must provide commit message." []))
    end in
  let* t :=
    match GetValue apr (DateParam ctx) with
    | Some commitTimeStr =>
        try (ParseDate ctx commitTimeStr)
            (fun err => ("", false, Some (fmt_Errorf err [])))
    | None => pure (QueryTime ctx)
    end in
  let props := {|
    Message := msg;
    Date := t;
    AllowEmpty := Contains apr (AllowEmptyFlag ctx);
    SkipEmpty := Contains apr (SkipEmptyFlag ctx);
    Amend := amend;
    Force := Contains apr (ForceFlag ctx);
    Name := name;
    Email := email;
  |} in
  emit (NewPendingCommit_called dbName roots props) ;;
  let* pendingCommit := try (NewPendingCommit ctx dbName roots props) fail in
  (* Nothing to commit, and we didn't pass --allowEmpty *)
  match pendingCommit with
  | None =>
      if Contains apr (SkipEmptyFlag ctx) then Return ("", true, None)
      else Return ("", false, Some (errors_New "nothing to commit"))
  | Some pendingCommit =>
      emit (DoltCommit_called dbName (GetTransaction ctx) pendingCommit) ;;
      let* newCommit :=
        try (DoltCommit ctx dbName (GetTransaction ctx) pendingCommit) fail in
      let* h := try (HashOf ctx newCommit) fail in
      Return (HashString ctx h, false, None)
  end.

(** ** doltCommit *)
Definition doltCommit (args : list string)
  : Body event (RowIter * option error) (RowIter * option error) :=
  let* (commitHash, skipped, err) := call (doDoltCommit args) in
  match err with
  | Some err => Return (None, Some err)
  | None =>
      if skipped : bool then Return (None, None)
      else Return (rowToIter commitHash, None)
  end.

(** ** doltCommitHashOut

    [outHash] is the string the pointer refers to when the procedure is
    entered; the second component of the result is that string when the
    procedure returns. *)
Definition doltCommitHashOut (outHash : string) (args : list string)
  : Body event (RowIter * option error * string) (RowIter * option error * string) :=
  let* (commitHash, skipped, err) := call (doDoltCommit args) in
  match err with
  | Some err => Return (None, Some err, outHash)
  | None =>
      if skipped : bool then Return (None, None, outHash)
      else
        let outHash := commitHash in
        Return (rowToIter commitHash, None, outHash)
  end.

(** The part of [doDoltCommit] from line 149 on, once
    [dSess.NewPendingCommit] was called with [props]. *)
Definition committed (apr : ArgParseResults) (roots : Roots) (props : CommitStagedProps Time)
  : (string * bool * option error) * list event :=
  let dbName := GetCurrentDatabase ctx in
  match NewPendingCommit ctx dbName roots props with
  | inl err => (("", false, Some (Ext err)), [NewPendingCommit_called dbName roots props])
  | inr None =>
      (if Contains apr (SkipEmptyFlag ctx) then ("", true, None)
       else ("", false, Some (errors_New "nothing to commit")),
       [NewPendingCommit_called dbName roots props])
  | inr (Some pendingCommit) =>
      (match DoltCommit ctx dbName (GetTransaction ctx) pendingCommit with
       | inl err => ("", false, Some (Ext err))
       | inr newCommit =>
           match HashOf ctx newCommit with
           | inl err => ("", false, Some (Ext err))
           | inr h => (HashString ctx h, false, None)
           end
       end,
       [NewPendingCommit_called dbName roots props;
        DoltCommit_called dbName (GetTransaction ctx) pendingCommit])
  end.

(** How the author and the message of [props] came about. *)
Definition author_of (apr : ArgParseResults) (props : CommitStagedProps Time) : Prop :=
  match GetValue apr (AuthorParam ctx) with
  | Some authorStr => ParseAuthor ctx authorStr = inr (Name props, Email props)
  | None =>
      Name props = User (GetClient ctx)
      /\ Email props = User (GetClient ctx) +:+ "@" +:+ Address (GetClient ctx)
  end.

Definition message_of (apr : ArgParseResults) (props : CommitStagedProps Time) : Prop :=
  match GetValue apr (MessageArg ctx) with
  | Some msg => Message props = msg
  | None =>
      Contains apr (AmendFlag ctx) = true
      /\ exists commit commitMeta,
          GetHeadCommit ctx (GetCurrentDatabase ctx) = inr commit
          /\ GetCommitMeta ctx commit = inr commitMeta
          /\ Message props = Description commitMeta
  end.

(** A response that is not an error. *)
Definition succeeds {A} (x : ext_error + A) : Prop := exists a, x = inr a.

End Commit.
End dprocedures.


(** * Package dprocedures: getDoltArgs *)
Module sqlargs.

(** The dynamic value that [types.Text.Convert] hands back as an
    [interface{}]: a string, or anything else (nil included), on which the
    assertion [text.(string)] panics. *)
Inductive any : Type :=
| String_ (s : string)
| NotString.

(** How [getDoltArgs] ends: with its two results ([None] is the nil slice),
    or in the panic of the type assertion. *)
Inductive result : Type :=
| Returns (args : option (list string)) (err : option error)
| Panics.

Section GetDoltArgs.
Context {Expression Row Value : Type}.

Inductive event : Type :=
| Eval_called (child : Expression).

(** [Eval_] is the method [Eval] of an expression. *)
Record Collaborators : Type := {
  Eval_ : Expression -> Row -> ext_error + Value;
  Convert : Value -> ext_error + any;
}.

Variable ctx : Collaborators.

Local Open Scope body_scope.

(** The [for] loop of lines 175-189 from index [i] on, [children] being
    the expressions from that index. *)
Fixpoint argsLoop (row : Row) (children : list Expression) (i : nat) (args : list string)
  : Body event result (list string) :=
  match children with
  | [] => pure args
  | child :: children' =>
      emit (Eval_called child) ;;
      let* childVal := try (Eval_ ctx child row) (fun err => Returns None (Some (Ext err))) in
      let* text := try (Convert ctx childVal) (fun err => Returns None (Some (Ext err))) in
      match text with
      | String_ s => argsLoop row children' (S i) (<[i:=s]> args)
      | NotString => Return Panics
      end
  end.

Definition getDoltArgs (row : Row) (children : list Expression) : Body event result result :=
  let args := replicate (length children) "" in
  let* args := argsLoop row children 0 args in
  Return (Returns (Some args) None).

(** The text of one expression: evaluated and converted to a string. *)
Definition text_of (row : Row) (child : Expression) (s : string) : Prop :=
  exists childVal, Eval_ ctx child row = inr childVal /\ Convert ctx childVal = inr (String_ s).


End GetDoltArgs.
End sqlargs.

(** * Notions used to describe runs *)

(** A body appends to the log only events that satisfy [P]. *)
Definition emits_only {Ev R A} (P : Ev -> Prop) (m : Body Ev R A) : Prop :=
  forall tr, exists out, (m tr).2 = tr ++ out /\ Forall P out.

Section StatusNotions.
Import commands.
Context {Hash : Type} `{EqDecision Hash}.
Context {Commit Ref Remote CommitSpec : Type}.
Context {RootsT TableDelta WorkingSetT ArtifactStatus SqlContext : Type}.
Variable dEnv : @Collaborators Hash Commit Ref Remote CommitSpec RootsT TableDelta
                  WorkingSetT ArtifactStatus SqlContext.

(** What [countCommitsInRange] returns. *)
Definition counted (startCommitHash targetCommitHash : Hash) : Z * option error :=
  (run (countCommitsInRange dEnv startCommitHash targetCommitHash)).1.

(** Events that write to the terminal. *)
Definition is_output (e : @event Hash Commit TableDelta ArtifactStatus) : Prop :=
  match e with
  | Printf _ _ | Println _ | PrintErrln _ => True
  | _ => False
  end.

(** Events of the two diff printers. *)
Definition is_diff_printer (e : @event Hash Commit TableDelta ArtifactStatus) : Prop :=
  match e with
  | printStagedDiffs_called _ _ | PrintDiffsNotStaged_called _ _ _ _ _ => True
  | _ => False
  end.

End StatusNotions.

Section CommitNotions.
Import dprocedures.
Context {Hash Commit Roots PendingCommit Time Transaction : Type}.
Variable ctx : @Collaborators Hash Commit Roots PendingCommit Time Transaction.

(** How the roots handed to [dSess.NewPendingCommit] came from the roots of
    the session, lines 85-95. *)
Definition staged_from (apr : ArgParseResults) (roots0 roots : Roots) : Prop :=
  if Contains apr (UpperCaseAllFlag ctx) then StageAllTables ctx roots0 true = inr roots
  else if Contains apr (AllFlag ctx) then StageModifiedAndDeletedTables ctx roots0 = inr roots
  else roots = roots0.

(** How the date of [props] came about, lines 129-137. *)
Definition date_of (apr : ArgParseResults) (props : CommitStagedProps Time) : Prop :=
  match GetValue apr (DateParam ctx) with
  | Some commitTimeStr => ParseDate ctx commitTimeStr = inr (Date props)
  | None => Date props = QueryTime ctx
  end.

(** The four flags of [props] are those of the arguments. *)
Definition flags_of (apr : ArgParseResults) (props : CommitStagedProps Time) : Prop :=
  AllowEmpty props = Contains apr (AllowEmptyFlag ctx)
  /\ SkipEmpty props = Contains apr (SkipEmptyFlag ctx)
  /\ Amend props = Contains apr (AmendFlag ctx)
  /\ Force props = Contains apr (ForceFlag ctx).

(** The steps of lines 64-77 went through: write access is granted and
    the arguments are accepted. *)
Definition admitted (apr : ArgParseResults) : Prop :=
  CheckAccess ctx = None /\ VerifyCommitArgs ctx apr = None.

(** Lines 79-95 give [roots]: the roots of the current database are
    loaded and, where a flag asks for it, staged. *)
Definition roots_are (apr : ArgParseResults) (roots : Roots) : Prop :=
  exists roots0,
    GetRoots ctx (GetCurrentDatabase ctx) = Some roots0 /\ staged_from apr roots0 roots.

(** Lines 97-108 give [name] and [email]. *)
Definition author_is (apr : ArgParseResults) (name email : string) : Prop :=
  match GetValue apr (AuthorParam ctx) with
  | Some authorStr => ParseAuthor ctx authorStr = inr (name, email)
  | None =>
      name = User (GetClient ctx)
      /\ email = User (GetClient ctx) +:+ "@" +:+ Address (GetClient ctx)
  end.

(** Lines 110-127 give [msg]. *)
Definition message_is (apr : ArgParseResults) (msg : string) : Prop :=
  match GetValue apr (MessageArg ctx) with
  | Some msg' => msg = msg'
  | None =>
      Contains apr (AmendFlag ctx) = true
      /\ exists commit commitMeta,
          GetHeadCommit ctx (GetCurrentDatabase ctx) = inr commit
          /\ GetCommitMeta ctx commit = inr commitMeta
          /\ msg = Description commitMeta
  end.

(** Lines 129-137 give [t]. *)
Definition date_is (apr : ArgParseResults) (t : Time) : Prop :=
  match GetValue apr (DateParam ctx) with
  | Some commitTimeStr => ParseDate ctx commitTimeStr = inr t
  | None => t = QueryTime ctx
  end.

(** The properties of lines 139-148 for a message, a date and an author. *)
Definition props_for (apr : ArgParseResults) (msg : string) (t : Time) (name email : string)
  : CommitStagedProps Time := {|
  Message := msg;
  Date := t;
  AllowEmpty := Contains apr (AllowEmptyFlag ctx);
  SkipEmpty := Contains apr (SkipEmptyFlag ctx);
  Amend := Contains apr (AmendFlag ctx);
  Force := Contains apr (ForceFlag ctx);
  Name := name;
  Email := email;
|}.

End CommitNotions.

(** * Example repositories and sessions

    Hashes, commits and refs are named by strings: [C1] is the root commit,
    [C2] its child and [C3] the child of [C2]. *)
Module Examples.

Definition walk_from (h : string) : ext_error + list (commands.next_result string) :=
  if String.eqb h "C3" then inr [commands.Yield "C3"; commands.Yield "C2"; commands.Yield "C1"]
  else if String.eqb h "C2" then inr [commands.Yield "C2"; commands.Yield "C1"]
  else if String.eqb h "C1" then inr [commands.Yield "C1"]
  else inl "unknown commit".

(** A repository whose branch [main] is at [localHead] and tracks
    [origin/main], which is at [upstreamHead]; [ancestor] is the answer of
    [doltdb.GetCommitAncestor], [wsErr] and [asErr] the errors that come with
    the working set and with the artifact status. *)
Definition repo (localHead upstreamHead : string) (ancestor : ext_error + string)
    (wsErr asErr : option ext_error)
  : @commands.Collaborators string string string string string unit string unit unit unit := {|
  commands.QueryEngine := inr (tt, true);
  commands.ParseArgsOrDie := fun args =>
    match args with
    | [] => inr {| Contains := fun _ => false; GetValue := fun _ => None |}
    | _ => inl 1%Z
    end;
  commands.ShowIgnoredFlag := "ignored";
  commands.Verbose := fun err =>
    match err with
    | Ext e => e
    | errors_New text => text
    | fmt_Errorf format _ => format
    end;
  commands.Roots := inr tt;
  commands.WorkingSet := (tt, wsErr);
  commands.CWBHeadRef := inr "main";
  commands.GetBranches :=
    inr {[ "main" := {| commands.Merge := "refs/heads/main"; commands.Remote_ := "origin" |} ]};
  commands.GetRemotes := inr {[ "origin" := "https://example.com/repo" ]};
  commands.GetTrackingRef := fun _ _ => inr "origin/main";
  commands.isMergeActive := inr false;
  commands.GetPath := fun r => r;
  commands.GetStagedUnstagedTableDeltas := fun _ => inr ([], []);
  commands.GetMergeArtifactStatus := fun _ => (tt, asErr);
  commands.HasConflicts := fun _ => false;
  commands.HasConstraintViolations := fun _ => false;
  commands.NewCommitSpec := fun s => inr s;
  commands.Resolve := fun spec _ =>
    if String.eqb spec "main" then inr localHead
    else if String.eqb spec "origin/main" then inr upstreamHead
    else inl "branch not found";
  commands.HashOf := fun c => inr c;
  commands.GetCommitAncestor := fun _ _ => ancestor;
  commands.GetTopologicalOrderIterator := walk_from;
  commands.branchHeader := "On branch %s";
  commands.unmergedTablesHeader := "You have unmerged tables (fix %s).";
  commands.allMergedHeader := "All conflicts fixed.";
  commands.printStagedDiffs := fun _ _ => 0%Z;
  commands.PrintDiffsNotStaged := fun _ _ _ _ n _ => inr n;
|}.

(** Parsed arguments given as the list of options with their values. *)
Definition parsed (opts : list (string * string)) : ArgParseResults := {|
  Contains := fun name => bool_decide (name ∈ opts.*1);
  GetValue := fun name => snd <$> List.find (fun o => String.eqb o.1 name) opts;
|}.

(** A session of user [root] on database [db], whose branch head [C2] has
    the description "fix bug"; [opts] are the options the parser finds and
    [pending] is the answer of [dSess.NewPendingCommit]. *)
Definition session (opts : list (string * string)) (pending : ext_error + option string)
  : @dprocedures.Collaborators string string string string Z unit := {|
  dprocedures.CheckAccess := None;
  dprocedures.GetCurrentDatabase := "db";
  dprocedures.GetClient := {| dprocedures.User := "root"; dprocedures.Address := "localhost" |};
  dprocedures.QueryTime := 1000%Z;
  dprocedures.Parse := fun _ => inr (parsed opts);
  dprocedures.VerifyCommitArgs := fun _ => None;
  dprocedures.ParseAuthor := fun s =>
    if String.eqb s "Ann <ann@example.com>" then inr ("Ann", "ann@example.com")
    else inl "Author not formatted correctly.";
  dprocedures.ParseDate := fun _ => inl "not a date";
  dprocedures.AllFlag := "all";
  dprocedures.UpperCaseAllFlag := "ALL";
  dprocedures.AuthorParam := "author";
  dprocedures.AmendFlag := "amend";
  dprocedures.MessageArg := "message";
  dprocedures.DateParam := "date";
  dprocedures.AllowEmptyFlag := "allow-empty";
  dprocedures.SkipEmptyFlag := "skip-empty";
  dprocedures.ForceFlag := "force";
  dprocedures.StageAllTables := fun roots _ => inr roots;
  dprocedures.StageModifiedAndDeletedTables := fun roots => inr roots;
  dprocedures.GetRoots := fun _ => Some "roots";
  dprocedures.GetHeadCommit := fun _ => inr "C2";
  dprocedures.NewPendingCommit := fun _ _ _ => pending;
  dprocedures.GetTransaction := tt;
  dprocedures.DoltCommit := fun _ _ _ => inr "C3";
  dprocedures.GetCommitMeta := fun _ =>
    inr {| dprocedures.meta_Name := "root"; dprocedures.meta_Email := "root@localhost";
           dprocedures.meta_Timestamp := 900%Z; dprocedures.Description := "fix bug" |};
  dprocedures.HashOf := fun c => inr c;
  dprocedures.HashString := fun h => h;
|}.

(** The properties that [session] hands to [dSess.NewPendingCommit]. *)
Definition props_of (msg : string) (skipEmpty amend : bool) (name email : string)
  : dprocedures.CommitStagedProps Z := {|
  dprocedures.Message := msg;
  dprocedures.Date := 1000%Z;
  dprocedures.AllowEmpty := false;
  dprocedures.SkipEmpty := skipEmpty;
  dprocedures.Amend := amend;
  dprocedures.Force := false;
  dprocedures.Name := name;
  dprocedures.Email := email;
|}.

(** The repository [base] with other branches, remotes and walks. *)
Definition repo_with
    (base : @commands.Collaborators string string string string string unit string unit unit unit)
    (branches : gmap string (@commands.BranchConfig string))
    (remotes : gmap string string)
    (walk : string -> ext_error + list (commands.next_result string))
  : @commands.Collaborators string string string string string unit string unit unit unit := {|
  commands.QueryEngine := commands.QueryEngine base;
  commands.ParseArgsOrDie := commands.ParseArgsOrDie base;
  commands.ShowIgnoredFlag := commands.ShowIgnoredFlag base;
  commands.Verbose := commands.Verbose base;
  commands.Roots := commands.Roots base;
  commands.WorkingSet := commands.WorkingSet base;
  commands.CWBHeadRef := commands.CWBHeadRef base;
  commands.GetBranches := inr branches;
  commands.GetRemotes := inr remotes;
  commands.GetTrackingRef := commands.GetTrackingRef base;
  commands.isMergeActive := commands.isMergeActive base;
  commands.GetPath := commands.GetPath base;
  commands.GetStagedUnstagedTableDeltas := commands.GetStagedUnstagedTableDeltas base;
  commands.GetMergeArtifactStatus := commands.GetMergeArtifactStatus base;
  commands.HasConflicts := commands.HasConflicts base;
  commands.HasConstraintViolations := commands.HasConstraintViolations base;
  commands.NewCommitSpec := commands.NewCommitSpec base;
  commands.Resolve := commands.Resolve base;
  commands.HashOf := commands.HashOf base;
  commands.GetCommitAncestor := commands.GetCommitAncestor base;
  commands.GetTopologicalOrderIterator := walk;
  commands.branchHeader := commands.branchHeader base;
  commands.unmergedTablesHeader := commands.unmergedTablesHeader base;
  commands.allMergedHeader := commands.allMergedHeader base;
  commands.printStagedDiffs := commands.printStagedDiffs base;
  commands.PrintDiffsNotStaged := commands.PrintDiffsNotStaged base;
|}.

(** A walk that breaks after the first commit. *)
Definition broken_walk (h : string) : ext_error + list (commands.next_result string) :=
  inr [commands.Yield h; commands.Fail "chunk missing"; commands.Yield "C1"].

(** The session [base] with a staging step and a writer that fail. *)
Definition session_with_failures
    (base : @dprocedures.Collaborators string string string string Z unit)
  : @dprocedures.Collaborators string string string string Z unit := {|
  dprocedures.CheckAccess := dprocedures.CheckAccess base;
  dprocedures.GetCurrentDatabase := dprocedures.GetCurrentDatabase base;
  dprocedures.GetClient := dprocedures.GetClient base;
  dprocedures.QueryTime := dprocedures.QueryTime base;
  dprocedures.Parse := dprocedures.Parse base;
  dprocedures.VerifyCommitArgs := dprocedures.VerifyCommitArgs base;
  dprocedures.ParseAuthor := dprocedures.ParseAuthor base;
  dprocedures.ParseDate := dprocedures.ParseDate base;
  dprocedures.AllFlag := dprocedures.AllFlag base;
  dprocedures.UpperCaseAllFlag := dprocedures.UpperCaseAllFlag base;
  dprocedures.AuthorParam := dprocedures.AuthorParam base;
  dprocedures.AmendFlag := dprocedures.AmendFlag base;
  dprocedures.MessageArg := dprocedures.MessageArg base;
  dprocedures.DateParam := dprocedures.DateParam base;
  dprocedures.AllowEmptyFlag := dprocedures.AllowEmptyFlag base;
  dprocedures.SkipEmptyFlag := dprocedures.SkipEmptyFlag base;
  dprocedures.ForceFlag := dprocedures.ForceFlag base;
  dprocedures.StageAllTables := fun _ _ => inl "table locked";
  dprocedures.StageModifiedAndDeletedTables :=
    dprocedures.StageModifiedAndDeletedTables base;
  dprocedures.GetRoots := dprocedures.GetRoots base;
  dprocedures.GetHeadCommit := dprocedures.GetHeadCommit base;
  dprocedures.NewPendingCommit := dprocedures.NewPendingCommit base;
  dprocedures.GetTransaction := dprocedures.GetTransaction base;
  dprocedures.DoltCommit := fun _ _ _ => inl "branch moved";
  dprocedures.GetCommitMeta := dprocedures.GetCommitMeta base;
  dprocedures.HashOf := dprocedures.HashOf base;
  dprocedures.HashString := dprocedures.HashString base;
|}.

(** Expressions named by their text: ["boom"] fails to evaluate, the value
    ["bad"] fails to convert and the value ["NULL"] converts to nil. *)
Definition exprs : @sqlargs.Collaborators string unit string := {|
  sqlargs.Eval_ := fun e _ => if String.eqb e "boom" then inl "evaluation failed" else inr e;
  sqlargs.Convert := fun v =>
    if String.eqb v "bad" then inl "value out of range"
    else if String.eqb v "NULL" then inr sqlargs.NotString
    else inr (sqlargs.String_ v);
|}.

End Examples.
(** * Facts about the embedding *)

Create HintDb body discriminated.
#[export] Hint Unfold bind pure Return emit try exec call run : body.

Ltac body_simpl := autounfold with body in *; simpl in *.

(** Closes [e ∉ l] for an explicit log [l] whose events differ from [e] by
    their constructor. *)
Ltac absent_from_log :=
  let Hin := fresh "Hin" in
  simpl; intros Hin;
  repeat (apply elem_of_cons in Hin as [Hin|Hin]; [discriminate Hin|]);
  by apply elem_of_nil in Hin.

Lemma wrap_int_id (z : Z) :
  (- max_int - 1 <= z <= max_int)%Z -> wrap_int z = z.
Proof.
  unfold wrap_int, max_int, int_bits. intros Hz.
  rewrite Z.mod_small; lia.
Qed.

(** ** The log only grows *)

Lemma appends_pure {Ev R A} (a : A) : appends (@pure Ev R A a).
Proof. intros tr. exists []. by rewrite app_nil_r. Qed.

Lemma appends_Return {Ev R A} (r : R) : appends (@Return Ev R A r).
Proof. intros tr. exists []. by rewrite app_nil_r. Qed.

Lemma appends_emit {Ev R} (e : Ev) : appends (@emit Ev R e).
Proof. intros tr. by exists [e]. Qed.

Lemma appends_try {Ev R A} (x : ext_error + A) (on_err : ext_error -> R) :
  appends (@try Ev R A x on_err).
Proof. destruct x; [apply appends_Return|apply appends_pure]. Qed.

Lemma appends_bind {Ev R A B} (m : Body Ev R A) (k : A -> Body Ev R B) :
  appends m -> (forall a, appends (k a)) -> appends (bind m k).
Proof.
  intros Hm Hk tr. unfold bind.
  destruct (Hm tr) as [out Hout]. destruct (m tr) as [[r|a] tr']; simpl in *; subst.
  - by exists out.
  - destruct (Hk a (tr ++ out)) as [out' Hout']. exists (out ++ out').
    by rewrite Hout', app_assoc.
Qed.

Lemma appends_call {Ev R R'} (f : Body Ev R' R') : appends f -> appends (@call Ev R R' f).
Proof.
  intros Hf tr. unfold call, exec. destruct (Hf tr) as [out Hout].
  destruct (f tr) as [[r|r] tr']; simpl in *; by exists out.
Qed.

Ltac appends_step :=
  first [ apply appends_bind | apply appends_call | apply appends_pure
        | apply appends_Return | apply appends_emit | apply appends_try
        | intros ? | progress case_match ].


(** * Properties of the status command *)

Section StatusFacts.
Import commands.
Context {Hash : Type} `{EqDecision Hash}.
Context {Commit Ref Remote CommitSpec : Type}.
Context {RootsT TableDelta WorkingSetT ArtifactStatus SqlContext : Type}.

Abbreviation Collab := (@Collaborators Hash Commit Ref Remote CommitSpec RootsT TableDelta
                      WorkingSetT ArtifactStatus SqlContext).
Abbreviation Event := (@event Hash Commit TableDelta ArtifactStatus).

Variable dEnv : Collab.

(** The loop counts the hashes handed out before the target. *)
Lemma countLoop_prefix (target : Hash) (pre : list Hash) rest (count : Z) :
  target ∉ pre ->
  (0 <= count)%Z ->
  (count + Z.of_nat (length pre) <= max_int)%Z ->
  countLoop (map Yield pre ++ Yield target :: rest) target count
  = ((count + Z.of_nat (length pre))%Z, None).
Proof.
  revert count. induction pre as [|h pre IH]; intros count Hnot Hc Hmax; simpl.
  - rewrite decide_True by done. f_equal. lia.
  - apply not_elem_of_cons in Hnot as [Hne Hnot].
    rewrite decide_False by done.
    simpl length in Hmax.
    rewrite wrap_int_id by (unfold max_int, int_bits in *; lia).
    rewrite IH by (done || lia). f_equal. lia.
Qed.

(** Without the target among the hashes handed out, the loop ends in an
    error and the count it returns is the zero of the error returns. *)
Lemma countLoop_miss (target : Hash) (itr : list (next_result Hash)) (count : Z) :
  Yield target ∉ itr ->
  exists err, countLoop itr target count = (0%Z, Some err).
Proof.
  revert count. induction itr as [|[h|e] itr IH]; intros count Hnot; simpl.
  - eauto.
  - apply not_elem_of_cons in Hnot as [Hne Hnot].
    rewrite decide_False by congruence. auto.
  - eauto.
Qed.

Lemma countLoop_exhausted (target : Hash) (hs : list Hash) (count : Z) :
  target ∉ hs ->
  countLoop (map Yield hs) target count
  = (0%Z, Some (errors_New "no match found to ancestor commit")).
Proof.
  revert count. induction hs as [|h hs IH]; intros count Hnot; simpl; [done|].
  apply not_elem_of_cons in Hnot as [Hne Hnot].
  rewrite decide_False by done. auto.
Qed.

Lemma countCommitsInRange_exec (start target : Hash) (tr : list Event) :
  exec (countCommitsInRange dEnv start target) tr
  = (match GetTopologicalOrderIterator dEnv start with
     | inl iErr => (0%Z, Some (Ext iErr))
     | inr itr => countLoop itr target 0
     end, tr ++ [GetTopologicalOrderIterator_called start]).
Proof.
  unfold countCommitsInRange. body_simpl.
  destruct (GetTopologicalOrderIterator dEnv start); reflexivity.
Qed.


(** Once both heads are resolved, what is left of
    [printRemoteRefTrackingInfo] is the part from line 212 on. *)
Lemma printRemoteRefTrackingInfo_resolved headCommit headHash remoteTrackingRef
    remoteCommit remoteHash (tr : list Event) :
  HeadsResolved dEnv headCommit headHash remoteTrackingRef remoteCommit remoteHash ->
  exec (printRemoteRefTrackingInfo dEnv) tr
  = match GetCommitAncestor dEnv headCommit remoteCommit with
    | inl err => (Some (Ext err), tr ++ [GetCommitAncestor_called headCommit remoteCommit])
    | inr ancCommit =>
        match HashOf dEnv ancCommit with
        | inl err => (Some (Ext err), tr ++ [GetCommitAncestor_called headCommit remoteCommit])
        | inr ancHash =>
            match aheadBehind dEnv headHash remoteHash ancHash
                    (tr ++ [GetCommitAncestor_called headCommit remoteCommit]) with
            | (inl r, tr') => (r, tr')
            | (inr (ahead, behind), tr') =>
                (None, tr' ++ [Println (Lit (getRemoteTrackingMsg
                                               (GetPath dEnv remoteTrackingRef) ahead behind))])
            end
        end
    end.
Proof.
  intros [].
  unfold printRemoteRefTrackingInfo. autounfold with body.
  repeat match goal with
         | Heq : ?x = _ |- context [?x] => rewrite Heq; simpl
         end.
  destruct (GetCommitAncestor dEnv headCommit remoteCommit) as [e|anc]; simpl; [done|].
  destruct (HashOf dEnv anc) as [e|ancHash]; simpl; [done|].
  destruct (aheadBehind _ _ _ _ _) as [[r|[a b]] tr']; done.
Qed.

(** C2, as the code has it: with equal head hashes the common ancestor is
    still looked up first and its errors are returned; when the look-up
    succeeds the counters stay [0] and [0], no topological iterator is
    asked for, the up-to-date message is printed and the result is nil. *)
Theorem equal_heads_no_walk headCommit headHash remoteTrackingRef remoteCommit remoteHash :
  HeadsResolved dEnv headCommit headHash remoteTrackingRef remoteCommit remoteHash ->
  headHash = remoteHash ->
  (forall ancHash tr, aheadBehind dEnv headHash remoteHash ancHash tr = (inr (0%Z, 0%Z), tr))
  /\ run (printRemoteRefTrackingInfo dEnv)
     = match GetCommitAncestor dEnv headCommit remoteCommit with
       | inl err => (Some (Ext err), [GetCommitAncestor_called headCommit remoteCommit])
       | inr ancCommit =>
           match HashOf dEnv ancCommit with
           | inl err => (Some (Ext err), [GetCommitAncestor_called headCommit remoteCommit])
           | inr _ =>
               (None, [GetCommitAncestor_called headCommit remoteCommit;
                       Println (Lit (getRemoteTrackingMsg (GetPath dEnv remoteTrackingRef) 0 0))])
           end
       end
  /\ forall start,
       GetTopologicalOrderIterator_called start ∉ (run (printRemoteRefTrackingInfo dEnv)).2.
Proof.
  intros Hres Heq.
  assert (Hblock : forall ancHash tr,
             aheadBehind dEnv headHash remoteHash ancHash tr = (inr (0%Z, 0%Z), tr)).
  { intros ancHash tr. unfold aheadBehind.
    destruct (decide (headHash <> remoteHash)); [done|reflexivity]. }
  assert (Hrun : run (printRemoteRefTrackingInfo dEnv)
     = match GetCommitAncestor dEnv headCommit remoteCommit with
       | inl err => (Some (Ext err), [GetCommitAncestor_called headCommit remoteCommit])
       | inr ancCommit =>
           match HashOf dEnv ancCommit with
           | inl err => (Some (Ext err), [GetCommitAncestor_called headCommit remoteCommit])
           | inr _ =>
               (None, [GetCommitAncestor_called headCommit remoteCommit;
                       Println (Lit (getRemoteTrackingMsg (GetPath dEnv remoteTrackingRef) 0 0))])
           end
       end).
  { unfold run. rewrite (printRemoteRefTrackingInfo_resolved _ _ _ _ _ _ Hres).
    destruct (GetCommitAncestor dEnv headCommit remoteCommit) as [e|anc]; [done|].
    destruct (HashOf dEnv anc) as [e|ancHash]; [done|].
    by rewrite Hblock. }
  split; [exact Hblock|]. split; [exact Hrun|].
  intros start. rewrite Hrun.
  destruct (GetCommitAncestor dEnv headCommit remoteCommit) as [e|anc]; simpl.
  { absent_from_log. }
  destruct (HashOf dEnv anc); absent_from_log.
Qed.

(** C3: for distinct heads with common ancestor hash [ancHash], [behind]
    is the number of hashes the walk from the upstream head hands out
    before [ancHash] and [ahead] the same from the local head (counts within
    the range of [int]); the upstream walk is made first, and the two
    counts are what [printRemoteRefTrackingInfo] reports for the ancestor
    that [doltdb.GetCommitAncestor] gave. When the upstream head [C2] is the
    parent of the local head [C3], so that the walk from [C3] hands out
    [C3] and then [C2], the counters are ahead 1 and behind 0. *)
Theorem divergence_counts :
  (forall headHash remoteHash ancHash preLocal preUpstream tr,
      headHash <> remoteHash ->
      walks_to dEnv remoteHash ancHash preUpstream ->
      walks_to dEnv headHash ancHash preLocal ->
      aheadBehind dEnv headHash remoteHash ancHash tr
      = (inr (Z.of_nat (length preLocal), Z.of_nat (length preUpstream)),
         tr ++ [GetTopologicalOrderIterator_called remoteHash;
                GetTopologicalOrderIterator_called headHash]))
  /\ (forall headCommit headHash remoteTrackingRef remoteCommit remoteHash
        ancCommit ancHash preLocal preUpstream,
      HeadsResolved dEnv headCommit headHash remoteTrackingRef remoteCommit remoteHash ->
      headHash <> remoteHash ->
      GetCommitAncestor dEnv headCommit remoteCommit = inr ancCommit ->
      HashOf dEnv ancCommit = inr ancHash ->
      walks_to dEnv remoteHash ancHash preUpstream ->
      walks_to dEnv headHash ancHash preLocal ->
      run (printRemoteRefTrackingInfo dEnv)
      = (None,
         [GetCommitAncestor_called headCommit remoteCommit;
          GetTopologicalOrderIterator_called remoteHash;
          GetTopologicalOrderIterator_called headHash;
          Println (Lit (getRemoteTrackingMsg (GetPath dEnv remoteTrackingRef)
                          (Z.of_nat (length preLocal))
                          (Z.of_nat (length preUpstream))))]))
  /\ (forall C3 C2 olderLocal olderUpstream tr,
      C3 <> C2 ->
      GetTopologicalOrderIterator dEnv C3 = inr (Yield C3 :: Yield C2 :: olderLocal) ->
      GetTopologicalOrderIterator dEnv C2 = inr (Yield C2 :: olderUpstream) ->
      (aheadBehind dEnv C3 C2 C2 tr).1 = inr (1%Z, 0%Z)).
Proof.
  assert (Hgen : forall headHash remoteHash ancHash preLocal preUpstream tr,
      headHash <> remoteHash ->
      walks_to dEnv remoteHash ancHash preUpstream ->
      walks_to dEnv headHash ancHash preLocal ->
      aheadBehind dEnv headHash remoteHash ancHash tr
      = (inr (Z.of_nat (length preLocal), Z.of_nat (length preUpstream)),
         tr ++ [GetTopologicalOrderIterator_called remoteHash;
                GetTopologicalOrderIterator_called headHash])).
  { intros h r c preL preU tr Hne (restU & HitU & HnotU & HmaxU) (restL & HitL & HnotL & HmaxL).
    unfold aheadBehind. rewrite decide_True by done.
    unfold bind, call. rewrite countCommitsInRange_exec, HitU.
    rewrite countLoop_prefix by (done || lia). simpl.
    rewrite countCommitsInRange_exec, HitL.
    rewrite countLoop_prefix by (done || lia). simpl.
    unfold pure. by rewrite <- app_assoc. }
  split; [exact Hgen|]. split.
  - intros hc h ref rc r ac c preL preU Hres Hne Hanc Hhash HwU HwL.
    unfold run. rewrite (printRemoteRefTrackingInfo_resolved _ _ _ _ _ _ Hres).
    rewrite Hanc, Hhash. by rewrite (Hgen _ _ _ _ _ _ Hne HwU HwL).
  - intros C3 C2 olderL olderU tr Hne HitL HitU.
    rewrite (Hgen C3 C2 C2 [C3] [] tr); [done|done|..].
    + exists olderU. split_and!; [done|apply not_elem_of_nil|by vm_compute].
    + exists olderL. split_and!; [done| |by vm_compute].
      apply not_elem_of_cons. split; [congruence|apply not_elem_of_nil].
Qed.

(** C4: a walk that runs to [io.EOF] without handing out the target makes
    [countCommitsInRange] return the count [0] with the error "no match
    found to ancestor commit"; and whenever the target is never handed out,
    by exhaustion or by a failure of the iterator, an error is returned. *)
Theorem exhausted_walk_is_error (startCommitHash targetCommitHash : Hash) :
  (forall hs,
      GetTopologicalOrderIterator dEnv startCommitHash = inr (map Yield hs) ->
      targetCommitHash ∉ hs ->
      (run (countCommitsInRange dEnv startCommitHash targetCommitHash)).1
      = (0%Z, Some (errors_New "no match found to ancestor commit")))
  /\ (forall itr,
      GetTopologicalOrderIterator dEnv startCommitHash = inr itr ->
      Yield targetCommitHash ∉ itr ->
      exists err,
        (run (countCommitsInRange dEnv startCommitHash targetCommitHash)).1
        = (0%Z, Some err)).
Proof.
  split.
  - intros hs Hit Hnot. unfold run.
    rewrite countCommitsInRange_exec, Hit. simpl.
    by apply countLoop_exhausted.
  - intros itr Hit Hnot. unfold run.
    rewrite countCommitsInRange_exec, Hit. simpl.
    by apply countLoop_miss.
Qed.

(** C8: for counts that are not negative, the message is the text of
    exactly one of the four forms: diverged when both counts are positive,
    ahead-only and behind-only when one is, up to date when both are zero;
    the ahead-only and behind-only texts say "commit" for a count of one and
    "commits" for more, and no text of another form equals the message. *)
Theorem tracking_msg_forms (remoteBranchName : string) (ahead behind : Z) :
  (0 <= ahead)%Z ->
  (0 <= behind)%Z ->
  getRemoteTrackingMsg remoteBranchName ahead behind
  = spec_text (spec_form ahead behind) remoteBranchName ahead behind
  /\ (spec_form ahead behind = Diverged <-> (ahead > 0 /\ behind > 0)%Z)
  /\ (spec_form ahead behind = AheadOnly <-> (ahead > 0 /\ behind = 0)%Z)
  /\ (spec_form ahead behind = BehindOnly <-> (ahead = 0 /\ behind > 0)%Z)
  /\ (spec_form ahead behind = UpToDate <-> (ahead = 0 /\ behind = 0)%Z)
  /\ (forall f name' ahead' behind',
         spec_text f name' ahead' behind'
         = getRemoteTrackingMsg remoteBranchName ahead behind ->
         f = spec_form ahead behind).
Proof.
  intros Ha Hb.
  assert (Hmsg : getRemoteTrackingMsg remoteBranchName ahead behind
                 = spec_text (spec_form ahead behind) remoteBranchName ahead behind).
  { unfold getRemoteTrackingMsg, spec_form, spec_text, spec_commits.
    destruct (Z.compare_spec ahead 0) as [-> | Hlt | Hgt]; [|lia|];
      destruct (Z.compare_spec behind 0) as [-> | Hlt' | Hgt']; try lia;
      repeat case_bool_decide; simpl andb; cbv iota; try lia; reflexivity. }
  split; [exact Hmsg|].
  assert (Hform : forall f (P : Prop),
             (spec_form ahead behind = f -> P) -> (P -> spec_form ahead behind = f) ->
             spec_form ahead behind = f <-> P) by (intros; by split).
  repeat (split; [apply Hform; unfold spec_form;
                  destruct (Z.compare_spec ahead 0); destruct (Z.compare_spec behind 0);
                  intros; first [discriminate | reflexivity | lia]|]).
  intros f name' a' b' Heq. rewrite Hmsg in Heq. clear Hmsg.
  destruct f, (spec_form ahead behind); try reflexivity; simpl in Heq; discriminate Heq.
Qed.

(** ** The status command only appends to the log *)

Lemma countCommitsInRange_appends (start target : Hash) :
  appends (countCommitsInRange dEnv start target).
Proof. unfold countCommitsInRange. repeat appends_step. Qed.

Lemma aheadBehind_appends (headHash remoteHash ancHash : Hash) :
  appends (aheadBehind dEnv headHash remoteHash ancHash).
Proof.
  unfold aheadBehind.
  repeat first [ apply countCommitsInRange_appends | appends_step ].
Qed.

Lemma printRemoteRefTrackingInfo_appends : appends (printRemoteRefTrackingInfo dEnv).
Proof.
  unfold printRemoteRefTrackingInfo.
  repeat first [ apply aheadBehind_appends | appends_step ].
Qed.

Lemma PrintStatus_appends sqlCtx stagedTbls notStagedTbls showIgnoredTables stat :
  appends (PrintStatus dEnv sqlCtx stagedTbls notStagedTbls showIgnoredTables stat).
Proof.
  unfold PrintStatus.
  repeat first [ apply printRemoteRefTrackingInfo_appends | appends_step ].
Qed.

(** C9: when the steps before line 90 succeed, an error of
    [dEnv.WorkingSet] or of [merge.GetMergeArtifactStatus] is written to the
    error stream and [Exec] goes on to [PrintStatus], run with the working
    set and the artifact status that came with the error; the exit code is
    [0] when [PrintStatus] returns nil (and [1], after one more report, when
    it does not), and the deferred [closeFunc] runs last. *)
Theorem status_errors_fall_through (commandStr : string) (args : list string)
    sqlCtx hasCloseFunc apr roots staged notStaged ws wsErr stat asErr :
  QueryEngine dEnv = inr (sqlCtx, hasCloseFunc) ->
  ParseArgsOrDie dEnv args = inr apr ->
  Roots dEnv = inr roots ->
  GetStagedUnstagedTableDeltas dEnv roots = inr (staged, notStaged) ->
  WorkingSet dEnv = (ws, wsErr) ->
  GetMergeArtifactStatus dEnv ws = (stat, asErr) ->
  let printed :=
    exec (PrintStatus dEnv sqlCtx staged notStaged (Contains apr (ShowIgnoredFlag dEnv)) stat)
         (reported dEnv wsErr ++ reported dEnv asErr) in
  let closing := if hasCloseFunc then [closeFunc] else [] in
  run (Exec dEnv commandStr args)
  = match printed.1 with
    | None => (Returned 0, printed.2 ++ closing)
    | Some err => (Returned 1, printed.2 ++ [PrintErrln (Verbose dEnv err)] ++ closing)
    end
  /\ (printed.1 = None -> (run (Exec dEnv commandStr args)).1 = Returned 0)
  /\ exists out,
       (run (Exec dEnv commandStr args)).2
       = reported dEnv wsErr ++ reported dEnv asErr ++ out.
Proof.
  intros Hq Hp Hr Hd Hw Hm printed closing.
  assert (Hrun : run (Exec dEnv commandStr args)
     = match printed.1 with
       | None => (Returned 0, printed.2 ++ closing)
       | Some err => (Returned 1, printed.2 ++ [PrintErrln (Verbose dEnv err)] ++ closing)
       end).
  { unfold run, Exec. rewrite Hq. unfold ExecBody, handleStatusVErr.
    autounfold with body. rewrite Hp, Hr. simpl. rewrite Hd. simpl. rewrite Hw.
    subst printed closing.
    destruct wsErr as [we|]; simpl; rewrite Hm; destruct asErr as [ae|]; simpl;
      unfold exec;
      match goal with
      | |- context [PrintStatus ?a ?b ?c ?d ?e ?f ?tr] =>
          destruct (PrintStatus a b c d e f tr) as [[[err|]|[err|]] tr']
      end; simpl; destruct hasCloseFunc; simpl;
      rewrite <- ?app_assoc, ?app_nil_r; reflexivity. }
  split; [exact Hrun|]. split.
  - intros Hnone. by rewrite Hrun, Hnone.
  - rewrite Hrun. subst printed.
    destruct (PrintStatus_appends sqlCtx staged notStaged
                (Contains apr (ShowIgnoredFlag dEnv)) stat
                (reported dEnv wsErr ++ reported dEnv asErr)) as [out Hout].
    unfold exec.
    destruct (PrintStatus _ _ _ _ _ _ _) as [[r|r] tr'] eqn:Hps; simpl in *; subst tr';
      destruct r; simpl; rewrite <- !app_assoc; eauto.
Qed.
End StatusFacts.

(** * Properties of the commit procedure *)

Section CommitFacts.
Import dprocedures.
Context {Hash Commit Roots PendingCommit Time Transaction : Type}.

Abbreviation CommitCollab :=
  (@Collaborators Hash Commit Roots PendingCommit Time Transaction).
Abbreviation CommitEvent := (@event Roots PendingCommit Time Transaction).

Variable ctx : CommitCollab.

(** Line 139 is reached: the run is [committed] for the inputs at hand. *)
Ltac reached :=
  right;
  match goal with
  | apr : ArgParseResults |- context [NewPendingCommit_called _ ?r ?p] => exists apr, r, p
  end;
  split_and!;
    [repeat match goal with
            | Heq : ?x = _ |- context [match ?x with _ => _ end] => rewrite Heq
            end; simpl; by eauto 10 ..
    |unfold committed; simpl;
     destruct (NewPendingCommit _ _ _ _) as [?|[?|]]; simpl;
       [done| |by destruct (Contains _ (SkipEmptyFlag ctx))];
     destruct (DoltCommit _ _ _ _); simpl; [done|];
     by destruct (HashOf _ _)].

(** [doDoltCommit] either returns an error before anything is asked of the
    session's writer, or reaches line 139 with resolved inputs. *)
Lemma doDoltCommit_cases (args : list string) :
  (exists err, run (doDoltCommit ctx args) = (("", false, Some err), []))
  \/ (exists apr roots props,
        Parse ctx args = inr apr
        /\ author_of ctx apr props
        /\ message_of ctx apr props
        /\ run (doDoltCommit ctx args) = committed ctx apr roots props).
Proof.
  unfold run, doDoltCommit, author_of, message_of. autounfold with body.
  destruct (CheckAccess ctx) as [e|]; simpl; [by eauto|].
  destruct (Parse ctx args) as [e|apr] eqn:Hargs; simpl; [by eauto|].
  destruct (VerifyCommitArgs ctx apr) as [e|]; simpl; [by eauto|].
  destruct (GetRoots ctx (GetCurrentDatabase ctx)) as [roots0|]; simpl; [|by eauto].
  assert (Hstage : exists staged : ext_error + Roots,
             (if Contains apr (UpperCaseAllFlag ctx)
              then try (Ev := CommitEvent) (StageAllTables ctx roots0 true)
                     (fun err => ("", false, Some (fmt_Errorf err [])))
              else if Contains apr (AllFlag ctx)
                   then try (StageModifiedAndDeletedTables ctx roots0)
                          (fun err => ("", false, Some (fmt_Errorf err [])))
                   else pure roots0)
             = try staged (fun err => ("", false, Some (fmt_Errorf err [])))).
  { destruct (Contains apr (UpperCaseAllFlag ctx)); [by eauto|].
    destruct (Contains apr (AllFlag ctx)); [by eauto|]. by exists (inr roots0). }
  destruct Hstage as [staged Hstage]. unfold try, pure, Return in Hstage.
  rewrite Hstage. clear Hstage.
  destruct staged as [e|roots]; simpl; [by eauto|].
  destruct (GetValue apr (AuthorParam ctx)) as [authorStr|] eqn:Hauthor.
  - destruct (ParseAuthor ctx authorStr) as [e|[name email]] eqn:Hparse; simpl; [by eauto|].
    destruct (GetValue apr (MessageArg ctx)) as [msg|] eqn:Hmsg; simpl.
    + destruct (GetValue apr (DateParam ctx)) as [commitTimeStr|]; simpl.
      * destruct (ParseDate ctx commitTimeStr) as [e|t]; simpl; [by eauto|].
        reached.
      * reached.
    + destruct (Contains apr (AmendFlag ctx)) eqn:Hamend; simpl; [|by eauto].
      destruct (GetHeadCommit ctx (GetCurrentDatabase ctx)) as [e|commit] eqn:Hhead;
        simpl; [by eauto|].
      destruct (GetCommitMeta ctx commit) as [e|commitMeta] eqn:Hmeta; simpl; [by eauto|].
      destruct (GetValue apr (DateParam ctx)) as [commitTimeStr|]; simpl.
      * destruct (ParseDate ctx commitTimeStr) as [e|t]; simpl; [by eauto|].
        reached.
      * reached.
  - simpl.
    destruct (GetValue apr (MessageArg ctx)) as [msg|] eqn:Hmsg; simpl.
    + destruct (GetValue apr (DateParam ctx)) as [commitTimeStr|]; simpl.
      * destruct (ParseDate ctx commitTimeStr) as [e|t]; simpl; [by eauto|].
        reached.
      * reached.
    + destruct (Contains apr (AmendFlag ctx)) eqn:Hamend; simpl; [|by eauto].
      destruct (GetHeadCommit ctx (GetCurrentDatabase ctx)) as [e|commit] eqn:Hhead;
        simpl; [by eauto|].
      destruct (GetCommitMeta ctx commit) as [e|commitMeta] eqn:Hmeta; simpl; [by eauto|].
      destruct (GetValue apr (DateParam ctx)) as [commitTimeStr|]; simpl.
      * destruct (ParseDate ctx commitTimeStr) as [e|t]; simpl; [by eauto|].
        reached.
      * reached.
Qed.

(** When [dSess.NewPendingCommit] was called, the run is the one described
    by [committed] for the arguments of that call. *)
Lemma doDoltCommit_pending (args : list string) dbName roots props :
  NewPendingCommit_called dbName roots props ∈ (run (doDoltCommit ctx args)).2 ->
  exists apr,
    Parse ctx args = inr apr
    /\ dbName = GetCurrentDatabase ctx
    /\ author_of ctx apr props
    /\ message_of ctx apr props
    /\ run (doDoltCommit ctx args) = committed ctx apr roots props.
Proof.
  intros Hin.
  destruct (doDoltCommit_cases args) as [[err Hrun]|(apr & roots' & props' & Hargs & Ha & Hm & Hrun)];
    rewrite Hrun in Hin; simpl in Hin.
  { by apply elem_of_nil in Hin. }
  assert (dbName = GetCurrentDatabase ctx /\ roots = roots' /\ props = props') as (-> & -> & ->).
  { unfold committed in Hin.
    destruct (NewPendingCommit _ _ _ _) as [?|[?|]]; simpl in Hin;
      repeat (apply elem_of_cons in Hin as [Hin|Hin]; [by simplify_eq|]);
      by apply elem_of_nil in Hin. }
  by exists apr.
Qed.

Lemma doDoltCommit_returns (args : list string) :
  let r := (run (doDoltCommit ctx args)).1 in
  (exists err, r = ("", false, Some err))
  \/ r = ("", true, None)
  \/ (exists h, r = (h, false, None)).
Proof.
  destruct (doDoltCommit_cases args) as [[err Hrun]|(apr & roots & props & _ & _ & _ & Hrun)];
    rewrite Hrun; simpl; [by eauto|].
  unfold committed. repeat case_match; simpl; eauto.
Qed.

(** C1: when [dSess.NewPendingCommit] was called and answered with a nil
    pending commit and no error, [doDoltCommit] returns [("", true, nil)]
    if the skip-empty flag is among the arguments and otherwise the error
    "nothing to commit" with an empty hash and [skipped = false]; nothing
    is written. And no return of [doDoltCommit] has [skipped = true]
    together with an error, so created, skipped and failed are told apart by
    the error and the flag. *)
Theorem nothing_to_commit (args : list string) apr dbName roots props :
  Parse ctx args = inr apr ->
  NewPendingCommit_called dbName roots props ∈ (run (doDoltCommit ctx args)).2 ->
  NewPendingCommit ctx dbName roots props = inr None ->
  (Contains apr (SkipEmptyFlag ctx) = true ->
   (run (doDoltCommit ctx args)).1 = ("", true, None))
  /\ (Contains apr (SkipEmptyFlag ctx) = false ->
      (run (doDoltCommit ctx args)).1
      = ("", false, Some (errors_New "nothing to commit")))
  /\ (run (doDoltCommit ctx args)).2 = [NewPendingCommit_called dbName roots props]
  /\ (forall args' h skipped err,
        (run (doDoltCommit ctx args')).1 = (h, skipped, err) ->
        skipped = true -> err = None).
Proof.
  intros Hargs Hin Hnone.
  destruct (doDoltCommit_pending _ _ _ _ Hin) as (apr' & Hargs' & -> & _ & _ & Hrun).
  assert (apr' = apr) as -> by congruence.
  rewrite Hrun. unfold committed. rewrite Hnone. simpl.
  split_and!.
  - by intros ->.
  - by intros ->.
  - done.
  - intros args' h skipped err Hret ->.
    destruct (doDoltCommit_returns args') as [[e He]|[He|[h' He]]];
      simpl in He; congruence.
Qed.

(** C10: every return of [doDoltCommit] is of one of three shapes, so that
    [skipped = true] comes with an empty hash and a nil error, a hash that
    is not empty comes with [skipped = false] and a nil error, and an error
    comes with an empty hash and [skipped = false]. *)
Theorem return_shapes (args : list string) :
  forall h skipped err,
    (run (doDoltCommit ctx args)).1 = (h, skipped, err) ->
    (skipped = true -> h = "" /\ err = None)
    /\ (h <> "" -> skipped = false /\ err = None)
    /\ (err <> None -> h = "" /\ skipped = false).
Proof.
  intros h skipped err Hret.
  destruct (doDoltCommit_returns args) as [[e He]|[He|[h' He]]];
    simpl in He; rewrite Hret in He; simplify_eq; split_and!; intros; done.
Qed.

(** Line 139 is reached when every step before it goes through, and the
    properties handed to [dSess.NewPendingCommit] are those resolved on the
    way. *)
Lemma doDoltCommit_reaches (args : list string) apr roots msg t name email :
  Parse ctx args = inr apr ->
  admitted ctx apr ->
  roots_are ctx apr roots ->
  author_is ctx apr name email ->
  message_is ctx apr msg ->
  date_is ctx apr t ->
  run (doDoltCommit ctx args) = committed ctx apr roots (props_for ctx apr msg t name email).
Proof.
  intros Hargs [Hacc Hver] (roots0 & Hroots & Hst) Hauth Hmsg Hdate.
  unfold run, doDoltCommit, props_for. autounfold with body.
  rewrite Hacc, Hargs. simpl. rewrite Hver, Hroots. simpl.
  assert (Hstage :
            (if Contains apr (UpperCaseAllFlag ctx)
             then try (Ev := CommitEvent) (StageAllTables ctx roots0 true)
                    (fun err => ("", false, Some (fmt_Errorf err [])))
             else if Contains apr (AllFlag ctx)
                  then try (StageModifiedAndDeletedTables ctx roots0)
                         (fun err => ("", false, Some (fmt_Errorf err [])))
                  else pure roots0)
            = pure roots).
  { unfold staged_from in Hst.
    destruct (Contains apr (UpperCaseAllFlag ctx)); [by rewrite Hst|].
    destruct (Contains apr (AllFlag ctx)); [by rewrite Hst|by subst]. }
  unfold try, pure, Return in Hstage. rewrite Hstage. clear Hstage. simpl.
  assert (Hauthor :
            match GetValue apr (AuthorParam ctx) with
            | Some authorStr =>
                try (Ev := CommitEvent) (ParseAuthor ctx authorStr)
                  (fun err => ("", false, Some (Ext err)))
            | None =>
                pure (User (GetClient ctx),
                      User (GetClient ctx) +:+ "@" +:+ Address (GetClient ctx))
            end = pure (name, email)).
  { unfold author_is in Hauth.
    destruct (GetValue apr (AuthorParam ctx)); [by rewrite Hauth|].
    by destruct Hauth as [-> ->]. }
  unfold try, pure, Return in Hauthor. rewrite Hauthor. clear Hauthor. simpl.
  assert (Hmessage :
            match GetValue apr (MessageArg ctx) with
            | Some msg' => pure (Ev := CommitEvent) (R := string * bool * option error) msg'
            | None =>
                if Contains apr (AmendFlag ctx)
                then bind (try (GetHeadCommit ctx (GetCurrentDatabase ctx))
                             (fun err => ("", false, Some (Ext err))))
                       (fun commit =>
                          bind (try (GetCommitMeta ctx commit)
                                  (fun err => ("", false, Some (Ext err))))
                            (fun commitMeta => pure (Description commitMeta)))
                else Return ("", false, Some (fmt_Errorf "Must provide commit message." []))
            end = pure msg).
  { unfold message_is in Hmsg.
    destruct (GetValue apr (MessageArg ctx)); [by subst|].
    destruct Hmsg as (-> & commit & commitMeta & Hhead & Hmeta & ->).
    unfold bind, try, pure. rewrite Hhead. simpl. by rewrite Hmeta. }
  unfold bind, try, pure, Return in Hmessage. rewrite Hmessage. clear Hmessage. simpl.
  assert (Htime :
            match GetValue apr (DateParam ctx) with
            | Some commitTimeStr =>
                try (Ev := CommitEvent) (R := string * bool * option error)
                  (ParseDate ctx commitTimeStr)
                  (fun err => ("", false, Some (fmt_Errorf err [])))
            | None => pure (QueryTime ctx)
            end = pure t).
  { unfold date_is in Hdate.
    destruct (GetValue apr (DateParam ctx)); [by rewrite Hdate|by subst]. }
  unfold try, pure, Return in Htime. rewrite Htime. clear Htime. simpl.
  unfold committed.
  destruct (NewPendingCommit _ _ _ _) as [?|[?|]]; simpl;
    [done| |by destruct (Contains _ (SkipEmptyFlag ctx))].
  destruct (DoltCommit _ _ _ _); simpl; [done|].
  by destruct (HashOf _ _).
Qed.

(** Whatever [dSess.NewPendingCommit] answers, the call is in the log. *)
Lemma committed_calls apr roots props :
  NewPendingCommit_called (GetCurrentDatabase ctx) roots props
    ∈ (committed ctx apr roots props).2.
Proof.
  unfold committed. destruct (NewPendingCommit _ _ _ _) as [?|[?|]]; simpl; by left.
Qed.

(** Without a message and without the amend flag line 139 is not reached. *)
Lemma no_message_no_amend (args : list string) apr :
  Parse ctx args = inr apr ->
  GetValue apr (MessageArg ctx) = None ->
  Contains apr (AmendFlag ctx) = false ->
  exists err, run (doDoltCommit ctx args) = (("", false, Some err), []).
Proof.
  intros Hargs Hmsg Hamend.
  destruct (doDoltCommit_cases args)
    as [Hfail|(apr' & roots & props & Hargs' & _ & Hm & _)]; [done|].
  assert (apr' = apr) as -> by congruence.
  unfold message_of in Hm. rewrite Hmsg in Hm. destruct Hm as [Hm _]. congruence.
Qed.

(** C5: a message among the arguments is the message of the pending commit
    whether or not the amend flag is set; without one and with the amend
    flag, the message is the description in the metadata of the head commit;
    without either, [doDoltCommit] returns an error and asks nothing of the
    session's writer, and the error is "Must provide commit message." when
    the steps of lines 64-108 went through. In the first two cases the
    pending commit is asked for, with that message, as soon as the other
    steps (access, verification, roots, author, date) go through. *)
Theorem commit_message (args : list string) apr :
  Parse ctx args = inr apr ->
  (forall msg dbName roots props,
      GetValue apr (MessageArg ctx) = Some msg ->
      NewPendingCommit_called dbName roots props ∈ (run (doDoltCommit ctx args)).2 ->
      Message props = msg)
  /\ (forall commit commitMeta dbName roots props,
      GetValue apr (MessageArg ctx) = None ->
      Contains apr (AmendFlag ctx) = true ->
      GetHeadCommit ctx (GetCurrentDatabase ctx) = inr commit ->
      GetCommitMeta ctx commit = inr commitMeta ->
      NewPendingCommit_called dbName roots props ∈ (run (doDoltCommit ctx args)).2 ->
      Message props = Description commitMeta)
  /\ (GetValue apr (MessageArg ctx) = None ->
      Contains apr (AmendFlag ctx) = false ->
      (exists err, run (doDoltCommit ctx args) = (("", false, Some err), []))
      /\ forall roots,
          CheckAccess ctx = None ->
          VerifyCommitArgs ctx apr = None ->
          GetRoots ctx (GetCurrentDatabase ctx) = Some roots ->
          (Contains apr (UpperCaseAllFlag ctx) = true ->
           succeeds (StageAllTables ctx roots true)) ->
          (Contains apr (UpperCaseAllFlag ctx) = false ->
           Contains apr (AllFlag ctx) = true ->
           succeeds (StageModifiedAndDeletedTables ctx roots)) ->
          (forall authorStr,
              GetValue apr (AuthorParam ctx) = Some authorStr ->
              succeeds (ParseAuthor ctx authorStr)) ->
          run (doDoltCommit ctx args)
          = (("", false, Some (fmt_Errorf "Must provide commit message." [])), []))
  /\ (forall msg roots name email t,
      GetValue apr (MessageArg ctx) = Some msg ->
      admitted ctx apr ->
      roots_are ctx apr roots ->
      author_is ctx apr name email ->
      date_is ctx apr t ->
      run (doDoltCommit ctx args)
      = committed ctx apr roots (props_for ctx apr msg t name email)
      /\ NewPendingCommit_called (GetCurrentDatabase ctx) roots
           (props_for ctx apr msg t name email)
         ∈ (run (doDoltCommit ctx args)).2)
  /\ (forall commit commitMeta roots name email t,
      GetValue apr (MessageArg ctx) = None ->
      Contains apr (AmendFlag ctx) = true ->
      GetHeadCommit ctx (GetCurrentDatabase ctx) = inr commit ->
      GetCommitMeta ctx commit = inr commitMeta ->
      admitted ctx apr ->
      roots_are ctx apr roots ->
      author_is ctx apr name email ->
      date_is ctx apr t ->
      run (doDoltCommit ctx args)
      = committed ctx apr roots (props_for ctx apr (Description commitMeta) t name email)
      /\ NewPendingCommit_called (GetCurrentDatabase ctx) roots
           (props_for ctx apr (Description commitMeta) t name email)
         ∈ (run (doDoltCommit ctx args)).2).
Proof.
  intros Hargs. split_and!.
  - intros msg dbName roots props Hmsg Hin.
    destruct (doDoltCommit_pending _ _ _ _ Hin) as (apr' & Hargs' & _ & _ & Hm & _).
    assert (apr' = apr) as -> by congruence.
    unfold message_of in Hm. by rewrite Hmsg in Hm.
  - intros commit commitMeta dbName roots props Hmsg Hamend Hhead Hmeta Hin.
    destruct (doDoltCommit_pending _ _ _ _ Hin) as (apr' & Hargs' & _ & _ & Hm & _).
    assert (apr' = apr) as -> by congruence.
    unfold message_of in Hm. rewrite Hmsg in Hm.
    destruct Hm as (_ & commit' & meta' & Hhead' & Hmeta' & ->).
    congruence.
  - intros Hmsg Hamend. split; [by eapply no_message_no_amend|].
    intros roots Haccess Hverify Hroots Hall Hmod Hauthor.
    unfold run, doDoltCommit. autounfold with body.
    rewrite Haccess, Hargs. simpl. rewrite Hverify, Hroots. simpl.
    assert (Hstage : exists staged : Roots,
               (if Contains apr (UpperCaseAllFlag ctx)
                then try (Ev := CommitEvent) (StageAllTables ctx roots true)
                       (fun err => ("", false, Some (fmt_Errorf err [])))
                else if Contains apr (AllFlag ctx)
                     then try (StageModifiedAndDeletedTables ctx roots)
                            (fun err => ("", false, Some (fmt_Errorf err [])))
                     else pure roots)
               = pure staged).
    { destruct (Contains apr (UpperCaseAllFlag ctx)).
      - destruct Hall as [staged ->]; [done|]. by exists staged.
      - destruct (Contains apr (AllFlag ctx)); [|by exists roots].
        destruct Hmod as [staged ->]; [done..|]. by exists staged. }
    destruct Hstage as [staged Hstage]. unfold try, pure, Return in Hstage.
    rewrite Hstage. clear Hstage. simpl.
    destruct (GetValue apr (AuthorParam ctx)) as [authorStr|].
    + destruct (Hauthor authorStr eq_refl) as [[name email] ->]. simpl.
      by rewrite Hmsg, Hamend.
    + simpl. by rewrite Hmsg, Hamend.
  - intros msg roots name email t Hmsg Hadm Hroots Hauth Hdate.
    assert (Hrun : run (doDoltCommit ctx args)
                   = committed ctx apr roots (props_for ctx apr msg t name email)).
    { apply doDoltCommit_reaches; try done. unfold message_is. by rewrite Hmsg. }
    split; [exact Hrun|]. rewrite Hrun. apply committed_calls.
  - intros commit commitMeta roots name email t Hmsg Hamend Hhead Hmeta Hadm Hroots Hauth Hdate.
    assert (Hrun : run (doDoltCommit ctx args)
                   = committed ctx apr roots
                       (props_for ctx apr (Description commitMeta) t name email)).
    { apply doDoltCommit_reaches; try done. unfold message_is. rewrite Hmsg.
      split; [done|]. by exists commit, commitMeta. }
    split; [exact Hrun|]. rewrite Hrun. apply committed_calls.
Qed.

(** C6: an author among the arguments that [cli.ParseAuthor] accepts gives
    the name and the email of the pending commit; one that it rejects makes
    [doDoltCommit] return an error with nothing asked of the session's
    writer; without an author argument the name is the user of the client and
    the email is the user, an at sign and the address of the client. In the
    first and the last case the pending commit is asked for, with that name
    and email, as soon as the other steps (access, verification, roots,
    message, date) go through. *)
Theorem commit_author (args : list string) apr :
  Parse ctx args = inr apr ->
  (forall authorStr name email dbName roots props,
      GetValue apr (AuthorParam ctx) = Some authorStr ->
      ParseAuthor ctx authorStr = inr (name, email) ->
      NewPendingCommit_called dbName roots props ∈ (run (doDoltCommit ctx args)).2 ->
      Name props = name /\ Email props = email)
  /\ (forall authorStr err,
      GetValue apr (AuthorParam ctx) = Some authorStr ->
      ParseAuthor ctx authorStr = inl err ->
      exists err', run (doDoltCommit ctx args) = (("", false, Some err'), []))
  /\ (forall dbName roots props,
      GetValue apr (AuthorParam ctx) = None ->
      NewPendingCommit_called dbName roots props ∈ (run (doDoltCommit ctx args)).2 ->
      Name props = User (GetClient ctx)
      /\ Email props = User (GetClient ctx) +:+ "@" +:+ Address (GetClient ctx))
  /\ (forall authorStr name email roots msg t,
      GetValue apr (AuthorParam ctx) = Some authorStr ->
      ParseAuthor ctx authorStr = inr (name, email) ->
      admitted ctx apr ->
      roots_are ctx apr roots ->
      message_is ctx apr msg ->
      date_is ctx apr t ->
      run (doDoltCommit ctx args)
      = committed ctx apr roots (props_for ctx apr msg t name email)
      /\ NewPendingCommit_called (GetCurrentDatabase ctx) roots
           (props_for ctx apr msg t name email)
         ∈ (run (doDoltCommit ctx args)).2)
  /\ (forall roots msg t,
      GetValue apr (AuthorParam ctx) = None ->
      admitted ctx apr ->
      roots_are ctx apr roots ->
      message_is ctx apr msg ->
      date_is ctx apr t ->
      run (doDoltCommit ctx args)
      = committed ctx apr roots
          (props_for ctx apr msg t (User (GetClient ctx))
             (User (GetClient ctx) +:+ "@" +:+ Address (GetClient ctx)))
      /\ NewPendingCommit_called (GetCurrentDatabase ctx) roots
           (props_for ctx apr msg t (User (GetClient ctx))
              (User (GetClient ctx) +:+ "@" +:+ Address (GetClient ctx)))
         ∈ (run (doDoltCommit ctx args)).2).
Proof.
  intros Hargs. split_and!.
  - intros authorStr name email dbName roots props Hauthor Hparse Hin.
    destruct (doDoltCommit_pending _ _ _ _ Hin) as (apr' & Hargs' & _ & Ha & _ & _).
    assert (apr' = apr) as -> by congruence.
    unfold author_of in Ha. rewrite Hauthor, Hparse in Ha. by simplify_eq.
  - intros authorStr err Hauthor Hparse.
    destruct (doDoltCommit_cases args)
      as [Hfail|(apr' & roots & props & Hargs' & Ha & _ & _)]; [done|].
    assert (apr' = apr) as -> by congruence.
    unfold author_of in Ha. rewrite Hauthor, Hparse in Ha. done.
  - intros dbName roots props Hauthor Hin.
    destruct (doDoltCommit_pending _ _ _ _ Hin) as (apr' & Hargs' & _ & Ha & _ & _).
    assert (apr' = apr) as -> by congruence.
    unfold author_of in Ha. by rewrite Hauthor in Ha.
  - intros authorStr name email roots msg t Hauthor Hparse Hadm Hroots Hmsg Hdate.
    assert (Hrun : run (doDoltCommit ctx args)
                   = committed ctx apr roots (props_for ctx apr msg t name email)).
    { apply doDoltCommit_reaches; try done. unfold author_is. by rewrite Hauthor. }
    split; [exact Hrun|]. rewrite Hrun. apply committed_calls.
  - intros roots msg t Hauthor Hadm Hroots Hmsg Hdate.
    assert (Hrun : run (doDoltCommit ctx args)
                   = committed ctx apr roots
                       (props_for ctx apr msg t (User (GetClient ctx))
                          (User (GetClient ctx) +:+ "@" +:+ Address (GetClient ctx)))).
    { apply doDoltCommit_reaches; try done. unfold author_is. by rewrite Hauthor. }
    split; [exact Hrun|]. rewrite Hrun. apply committed_calls.
Qed.

(** C7: after a commit that was created, both procedures return the one
    row that holds the hash, and [doltCommitHashOut] leaves the hash in the
    string behind [outHash]; after a skipped commit both return the nil
    iterator and no error, and the string behind [outHash] is what it was;
    after an error both return it, and the string is what it was. Neither
    procedure adds to what [doDoltCommit] asked of the session's writer. *)
Theorem commit_surfaces (args : list string) (outHash : string) :
  (forall h,
      (run (doDoltCommit ctx args)).1 = (h, false, None) ->
      run (doltCommit ctx args) = ((Some [[h]], None), (run (doDoltCommit ctx args)).2)
      /\ run (doltCommitHashOut ctx outHash args)
         = ((Some [[h]], None, h), (run (doDoltCommit ctx args)).2))
  /\ (forall h,
      (run (doDoltCommit ctx args)).1 = (h, true, None) ->
      run (doltCommit ctx args) = ((None, None), (run (doDoltCommit ctx args)).2)
      /\ run (doltCommitHashOut ctx outHash args)
         = ((None, None, outHash), (run (doDoltCommit ctx args)).2))
  /\ (forall h skipped err,
      (run (doDoltCommit ctx args)).1 = (h, skipped, Some err) ->
      run (doltCommit ctx args) = ((None, Some err), (run (doDoltCommit ctx args)).2)
      /\ run (doltCommitHashOut ctx outHash args)
         = ((None, Some err, outHash), (run (doDoltCommit ctx args)).2)).
Proof.
  unfold doltCommit, doltCommitHashOut, run, call, exec, bind, Return.
  destruct (doDoltCommit ctx args []) as [[[[h0 skipped0] err0]|[[h0 skipped0] err0]] tr];
    simpl; split_and!; intros; by simplify_eq.
Qed.

End CommitFacts.

(** * The theorems at work on the example repositories and sessions *)

Section Runs.
Import commands dprocedures Examples.

(** C2: both heads are at [C2]; the ancestor is still looked up, and when
    the look-up fails the error is returned. *)
Lemma equal_heads_ancestor_lookup :
  GetCommitAncestor_called "C2" "C2"
    ∈ (run (printRemoteRefTrackingInfo (repo "C2" "C2" (inr "C2") None None))).2
  /\ (run (printRemoteRefTrackingInfo (repo "C2" "C2" (inl "chunk store closed") None None))).1
     = Some (Ext "chunk store closed").
Proof.
  split; [|reflexivity].
  vm_compute. constructor.
Qed.

Lemma heads_at (localHead upstreamHead : string) ancestor :
  HeadsResolved (repo localHead upstreamHead ancestor None None)
    localHead localHead "origin/main" upstreamHead upstreamHead.
Proof.
  eapply (heads_resolved _ _ _ _ _ _ "main" _
            {| Merge := "refs/heads/main"; Remote_ := "origin" |} "main" _
            "https://example.com/repo" "origin/main");
    try reflexivity.
Defined.

Lemma equal_heads_no_walk_witness :
  run (printRemoteRefTrackingInfo (repo "C2" "C2" (inr "C2") None None))
  = (None, [GetCommitAncestor_called "C2" "C2";
            Println (Lit "Your branch is up to date with 'origin/main'.")]).
Proof.
  destruct (equal_heads_no_walk (repo "C2" "C2" (inr "C2") None None)
              "C2" "C2" "origin/main" "C2" "C2" (heads_at "C2" "C2" (inr "C2")) eq_refl)
    as (_ & Hrun & _).
  exact Hrun.
Defined.

(** Scenario A on the example repository: [main] at [C3], [origin/main] at
    its parent [C2]. *)
Lemma divergence_counts_witness :
  run (printRemoteRefTrackingInfo (repo "C3" "C2" (inr "C2") None None))
  = (None,
     [GetCommitAncestor_called "C3" "C2";
      GetTopologicalOrderIterator_called "C2";
      GetTopologicalOrderIterator_called "C3";
      Println (Lit (getRemoteTrackingMsg "origin/main" 1 0))]).
Proof.
  apply (proj1 (proj2 (divergence_counts (repo "C3" "C2" (inr "C2") None None)))
           "C3" "C3" "origin/main" "C2" "C2" "C2" "C2" ["C3"] []).
  - apply heads_at.
  - discriminate.
  - reflexivity.
  - reflexivity.
  - exists [Yield "C1"]. split; [reflexivity|]. split; [apply not_elem_of_nil|by vm_compute].
  - exists [Yield "C1"]. split; [reflexivity|]. split; [|by vm_compute].
    apply not_elem_of_cons. split; [discriminate|apply not_elem_of_nil].
Defined.

(** From the root [C1] the walk ends without meeting [C2]. *)
Lemma exhausted_walk_is_error_witness :
  (run (countCommitsInRange (repo "C3" "C2" (inr "C2") None None) "C1" "C2")).1
  = (0%Z, Some (errors_New "no match found to ancestor commit")).
Proof.
  apply (proj1 (exhausted_walk_is_error (repo "C3" "C2" (inr "C2") None None) "C1" "C2")
           ["C1"]).
  - reflexivity.
  - apply not_elem_of_cons. split; [discriminate|apply not_elem_of_nil].
Defined.

Lemma tracking_msg_forms_witness :
  getRemoteTrackingMsg "origin/main" 2 0 = spec_text AheadOnly "origin/main" 2 0
  /\ getRemoteTrackingMsg "origin/main" 1 1 = spec_text Diverged "origin/main" 1 1.
Proof.
  split.
  - apply (proj1 (tracking_msg_forms "origin/main" 2 0 ltac:(lia) ltac:(lia))).
  - apply (proj1 (tracking_msg_forms "origin/main" 1 1 ltac:(lia) ltac:(lia))).
Defined.

(** [status] in a repository whose working set cannot be read: the error is
    printed first, the status follows and the exit code is [0]. *)
Lemma status_errors_fall_through_witness :
  (run (Exec (repo "C2" "C2" (inr "C2") (Some "no working set") None) "status" [])).1
  = Returned 0
  /\ exists out,
       (run (Exec (repo "C2" "C2" (inr "C2") (Some "no working set") None) "status" [])).2
       = [PrintErrln "no working set"] ++ [] ++ out.
Proof.
  destruct (status_errors_fall_through
              (repo "C2" "C2" (inr "C2") (Some "no working set") None) "status" []
              tt true {| Contains := fun _ => false; GetValue := fun _ => None |}
              tt [] [] tt (Some "no working set") tt None
              eq_refl eq_refl eq_refl eq_refl eq_refl eq_refl)
    as (_ & Hcode & Hlog).
  split; [apply Hcode; reflexivity|exact Hlog].
Defined.

(** A commit with [--skip-empty] and nothing to commit. *)
Lemma nothing_to_commit_witness :
  run (doDoltCommit (session [("skip-empty", ""); ("message", "msg")] (inr None))
         ["--skip-empty"; "-m"; "msg"])
  = (("", true, None),
     [NewPendingCommit_called "db" "roots" (props_of "msg" true false "root" "root@localhost")]).
Proof.
  destruct (nothing_to_commit (session [("skip-empty", ""); ("message", "msg")] (inr None))
              ["--skip-empty"; "-m"; "msg"]
              (parsed [("skip-empty", ""); ("message", "msg")]) "db" "roots"
              (props_of "msg" true false "root" "root@localhost")
              eq_refl ltac:(vm_compute; constructor) eq_refl)
    as (Hskip & _ & Hlog & _).
  specialize (Hskip eq_refl).
  destruct (run _) as [r log]. simpl in *. by subst.
Defined.

(** A message given together with [--amend] is the message of the commit;
    [--amend] without a message takes the description of the head commit;
    without [--amend] the commit fails for want of a message. *)
Lemma commit_message_witness :
  run (doDoltCommit (session [("amend", ""); ("message", "msg")] (inr (Some "pc")))
         ["--amend"; "-m"; "msg"])
  = (("C3", false, None),
     [NewPendingCommit_called "db" "roots" (props_of "msg" false true "root" "root@localhost");
      DoltCommit_called "db" tt "pc"])
  /\ run (doDoltCommit (session [("amend", "")] (inr (Some "pc"))) ["--amend"])
     = (("C3", false, None),
        [NewPendingCommit_called "db" "roots"
           (props_of "fix bug" false true "root" "root@localhost");
         DoltCommit_called "db" tt "pc"])
  /\ run (doDoltCommit (session [] (inr (Some "pc"))) [])
     = (("", false, Some (fmt_Errorf "Must provide commit message." [])), []).
Proof.
  split; [|split].
  - destruct (proj1 (proj2 (proj2 (proj2
                (commit_message (session [("amend", ""); ("message", "msg")] (inr (Some "pc")))
                   ["--amend"; "-m"; "msg"] (parsed [("amend", ""); ("message", "msg")])
                   eq_refl))))
                "msg" "roots" "root" "root@localhost" 1000%Z eq_refl)
      as [Hrun _].
    + by split.
    + by exists "roots".
    + by split.
    + reflexivity.
    + rewrite Hrun. reflexivity.
  - destruct (proj2 (proj2 (proj2 (proj2
                (commit_message (session [("amend", "")] (inr (Some "pc")))
                   ["--amend"] (parsed [("amend", "")]) eq_refl))))
                "C2" {| meta_Name := "root"; meta_Email := "root@localhost";
                        meta_Timestamp := 900%Z; Description := "fix bug" |}
                "roots" "root" "root@localhost" 1000%Z eq_refl eq_refl eq_refl eq_refl)
      as [Hrun _].
    + by split.
    + by exists "roots".
    + by split.
    + reflexivity.
    + rewrite Hrun. reflexivity.
  - apply (proj1 (proj2 (proj2 (commit_message (session [] (inr (Some "pc"))) [] (parsed [])
                                  eq_refl)))
             eq_refl eq_refl) with (roots := "roots"); try reflexivity.
    + discriminate.
    + discriminate.
    + discriminate.
Defined.

(** An author argument is used as parsed; a malformed one fails the
    commit; without one the author is the user of the session. *)
Lemma commit_author_witness :
  run (doDoltCommit
         (session [("author", "Ann <ann@example.com>"); ("message", "m")] (inr (Some "pc")))
         ["--author"; "Ann <ann@example.com>"; "-m"; "m"])
  = (("C3", false, None),
     [NewPendingCommit_called "db" "roots" (props_of "m" false false "Ann" "ann@example.com");
      DoltCommit_called "db" tt "pc"])
  /\ (exists err,
        run (doDoltCommit (session [("author", "Ann"); ("message", "m")] (inr (Some "pc")))
               ["--author"; "Ann"; "-m"; "m"])
        = (("", false, Some err), []))
  /\ run (doDoltCommit (session [("message", "m")] (inr (Some "pc"))) ["-m"; "m"])
     = (("C3", false, None),
        [NewPendingCommit_called "db" "roots" (props_of "m" false false "root" "root@localhost");
         DoltCommit_called "db" tt "pc"]).
Proof.
  split; [|split].
  - destruct (proj1 (proj2 (proj2 (proj2
                (commit_author
                   (session [("author", "Ann <ann@example.com>"); ("message", "m")]
                      (inr (Some "pc")))
                   ["--author"; "Ann <ann@example.com>"; "-m"; "m"]
                   (parsed [("author", "Ann <ann@example.com>"); ("message", "m")])
                   eq_refl))))
                "Ann <ann@example.com>" "Ann" "ann@example.com" "roots" "m" 1000%Z
                eq_refl eq_refl)
      as [Hrun _].
    + by split.
    + by exists "roots".
    + reflexivity.
    + reflexivity.
    + rewrite Hrun. reflexivity.
  - apply (proj1 (proj2 (commit_author
                           (session [("author", "Ann"); ("message", "m")] (inr (Some "pc")))
                           ["--author"; "Ann"; "-m"; "m"]
                           (parsed [("author", "Ann"); ("message", "m")]) eq_refl))
             "Ann" "Author not formatted correctly."); reflexivity.
  - destruct (proj2 (proj2 (proj2 (proj2
                (commit_author (session [("message", "m")] (inr (Some "pc"))) ["-m"; "m"]
                   (parsed [("message", "m")]) eq_refl))))
                "roots" "m" 1000%Z eq_refl)
      as [Hrun _].
    + by split.
    + by exists "roots".
    + reflexivity.
    + reflexivity.
    + rewrite Hrun. reflexivity.
Defined.

(** A created commit on both surfaces, and a skipped one. *)
Lemma commit_surfaces_witness :
  (run (doltCommitHashOut (session [("message", "m")] (inr (Some "pc"))) "old" ["-m"; "m"])).1
  = (Some [["C3"]], None, "C3")
  /\ (run (doltCommitHashOut (session [("skip-empty", ""); ("message", "m")] (inr None))
             "old" ["--skip-empty"; "-m"; "m"])).1
     = (None, None, "old").
Proof.
  split.
  - destruct (proj1 (commit_surfaces (session [("message", "m")] (inr (Some "pc")))
                       ["-m"; "m"] "old") "C3" eq_refl) as [_ ->].
    reflexivity.
  - destruct (proj1 (proj2 (commit_surfaces
                              (session [("skip-empty", ""); ("message", "m")] (inr None))
                              ["--skip-empty"; "-m"; "m"] "old")) "" eq_refl) as [_ ->].
    reflexivity.
Defined.

(** The skipped commit has the shape of the second kind. *)
Lemma return_shapes_witness :
  (run (doDoltCommit (session [("skip-empty", ""); ("message", "m")] (inr None))
          ["--skip-empty"; "-m"; "m"])).1 = ("", true, None)
  /\ ("" = "" /\ (None : option error) = None).
Proof.
  split; [reflexivity|].
  apply (proj1 (return_shapes (session [("skip-empty", ""); ("message", "m")] (inr None))
                  ["--skip-empty"; "-m"; "m"] "" true None eq_refl)).
  reflexivity.
Defined.

End Runs.

(** * Further properties of the status command *)

(** ** Events a body can emit *)

Lemma emits_only_pure {Ev R A} (P : Ev -> Prop) (a : A) : emits_only P (@pure Ev R A a).
Proof. intros tr. exists []. by rewrite app_nil_r. Qed.

Lemma emits_only_Return {Ev R A} (P : Ev -> Prop) (r : R) : emits_only P (@Return Ev R A r).
Proof. intros tr. exists []. by rewrite app_nil_r. Qed.

Lemma emits_only_emit {Ev R} (P : Ev -> Prop) (e : Ev) : P e -> emits_only P (@emit Ev R e).
Proof. intros He tr. exists [e]. split; [done|by constructor]. Qed.

Lemma emits_only_try {Ev R A} (P : Ev -> Prop) (x : ext_error + A) (on_err : ext_error -> R) :
  emits_only P (@try Ev R A x on_err).
Proof. destruct x; [apply emits_only_Return|apply emits_only_pure]. Qed.

Lemma emits_only_bind {Ev R A B} (P : Ev -> Prop) (m : Body Ev R A) (k : A -> Body Ev R B) :
  emits_only P m -> (forall a, emits_only P (k a)) -> emits_only P (bind m k).
Proof.
  intros Hm Hk tr. unfold bind.
  destruct (Hm tr) as (out & Hout & HP). destruct (m tr) as [[r|a] tr']; simpl in *; subst.
  - by exists out.
  - destruct (Hk a (tr ++ out)) as (out' & Hout' & HP'). exists (out ++ out').
    rewrite Hout', app_assoc. split; [done|by apply Forall_app].
Qed.

Lemma emits_only_call {Ev R R'} (P : Ev -> Prop) (f : Body Ev R' R') :
  emits_only P f -> emits_only P (@call Ev R R' f).
Proof.
  intros Hf tr. unfold call, exec. destruct (Hf tr) as (out & Hout & HP).
  destruct (f tr) as [[r|r] tr']; simpl in *; by exists out.
Qed.

Lemma emits_only_exec {Ev R} (P : Ev -> Prop) (f : Body Ev R R) (tr : list Ev) :
  emits_only P f -> exists out, (exec f tr).2 = tr ++ out /\ Forall P out.
Proof.
  intros Hf. unfold exec. destruct (Hf tr) as (out & Hout & HP).
  destruct (f tr) as [[r|r] tr']; simpl in *; by exists out.
Qed.

Ltac emits_step :=
  first [ apply emits_only_bind | apply emits_only_call | apply emits_only_pure
        | apply emits_only_Return | apply emits_only_try
        | apply emits_only_emit; first [done | by auto]
        | intros ? | progress case_match ].

Section StatusMore.
Import commands.
Context {Hash : Type} `{EqDecision Hash}.
Context {Commit Ref Remote CommitSpec : Type}.
Context {RootsT TableDelta WorkingSetT ArtifactStatus SqlContext : Type}.

Variable dEnv : @Collaborators Hash Commit Ref Remote CommitSpec RootsT TableDelta
                  WorkingSetT ArtifactStatus SqlContext.

Abbreviation StatusEvent := (@event Hash Commit TableDelta ArtifactStatus).

(** ** countCommitsInRange *)

Lemma counted_eq (start target : Hash) :
  counted dEnv start target
  = match GetTopologicalOrderIterator dEnv start with
    | inl iErr => (0%Z, Some (Ext iErr))
    | inr itr => countLoop itr target 0
    end.
Proof. unfold counted, run. by rewrite countCommitsInRange_exec. Qed.

Lemma countCommitsInRange_counted (start target : Hash) (tr : list StatusEvent) :
  exec (countCommitsInRange dEnv start target) tr
  = (counted dEnv start target, tr ++ [GetTopologicalOrderIterator_called start]).
Proof. by rewrite countCommitsInRange_exec, counted_eq. Qed.

(** A count that is returned without error is the position of the first
    occurrence of the target. *)
Lemma countLoop_sound (target : Hash) (itr : list (next_result Hash)) (count n : Z) :
  (0 <= count)%Z ->
  (count + Z.of_nat (length itr) <= max_int)%Z ->
  countLoop itr target count = (n, None) ->
  exists pre rest,
    itr = map Yield pre ++ Yield target :: rest
    /\ (target ∉ pre)
    /\ n = (count + Z.of_nat (length pre))%Z.
Proof.
  revert count. induction itr as [|[h|e] itr IH]; intros count Hc Hmax Hrun; simpl in *.
  - discriminate.
  - destruct (decide (h = target)) as [->|Hne].
    + exists [], itr. simplify_eq. split_and!; [done|apply not_elem_of_nil|simpl; lia].
    + rewrite wrap_int_id in Hrun by (unfold max_int, int_bits in *; lia).
      destruct (IH (count + 1)%Z) as (pre & rest & -> & Hnot & ->); [lia|lia|done|].
      exists (h :: pre), rest. split_and!; [done| |simpl length; lia].
      apply not_elem_of_cons. split; [congruence|done].
  - discriminate.
Qed.

Lemma countLoop_failure (target : Hash) (pre : list Hash) (e : ext_error) rest (count : Z) :
  target ∉ pre ->
  countLoop (map Yield pre ++ Fail e :: rest) target count = (0%Z, Some (Ext e)).
Proof.
  revert count. induction pre as [|h pre IH]; intros count Hnot; simpl; [done|].
  apply not_elem_of_cons in Hnot as [Hne Hnot].
  rewrite decide_False by done. auto.
Qed.

(** X1: a count returned without an error is the number of hashes the
    iterator handed out before the first occurrence of the target, for an
    iterator short enough for an [int]. *)
Theorem count_is_position (startCommitHash targetCommitHash : Hash) itr (n : Z) :
  GetTopologicalOrderIterator dEnv startCommitHash = inr itr ->
  (Z.of_nat (length itr) <= max_int)%Z ->
  counted dEnv startCommitHash targetCommitHash = (n, None) ->
  exists pre,
    walks_to dEnv startCommitHash targetCommitHash pre
    /\ n = Z.of_nat (length pre).
Proof.
  intros Hit Hmax Hrun. rewrite counted_eq, Hit in Hrun.
  destruct (countLoop_sound targetCommitHash itr 0 n) as (pre & rest & -> & Hnot & ->);
    [lia|lia|done|].
  exists pre. split; [|lia].
  exists rest. split_and!; [done..|].
  rewrite length_app, length_map in Hmax. simpl in Hmax. lia.
Qed.

(** X2: an error of the iterator that comes before the target is what
    [countCommitsInRange] returns, with the count [0], whatever the iterator
    would have handed out afterwards; so is the error of creating the
    iterator. *)
Theorem walk_error_is_returned (startCommitHash targetCommitHash : Hash) (e : ext_error) :
  (GetTopologicalOrderIterator dEnv startCommitHash = inl e ->
   counted dEnv startCommitHash targetCommitHash = (0%Z, Some (Ext e)))
  /\ (forall pre rest,
        GetTopologicalOrderIterator dEnv startCommitHash
          = inr (map Yield pre ++ Fail e :: rest) ->
        targetCommitHash ∉ pre ->
        counted dEnv startCommitHash targetCommitHash = (0%Z, Some (Ext e))).
Proof.
  split.
  - intros Hit. by rewrite counted_eq, Hit.
  - intros pre rest Hit Hnot. rewrite counted_eq, Hit. by apply countLoop_failure.
Qed.

(** ** The two counters *)

Lemma aheadBehind_exec (headHash remoteHash ancHash : Hash) (tr : list StatusEvent) :
  aheadBehind dEnv headHash remoteHash ancHash tr
  = if decide (headHash <> remoteHash) then
      match counted dEnv remoteHash ancHash with
      | (_, Some err) =>
          (inl (Some err), tr ++ [GetTopologicalOrderIterator_called remoteHash])
      | (behind, None) =>
          match counted dEnv headHash ancHash with
          | (_, Some err) =>
              (inl (Some err), tr ++ [GetTopologicalOrderIterator_called remoteHash;
                                      GetTopologicalOrderIterator_called headHash])
          | (ahead, None) =>
              (inr (ahead, behind), tr ++ [GetTopologicalOrderIterator_called remoteHash;
                                           GetTopologicalOrderIterator_called headHash])
          end
      end
    else (inr (0%Z, 0%Z), tr).
Proof.
  unfold aheadBehind. destruct (decide (headHash <> remoteHash)); [|done].
  unfold bind, call. rewrite countCommitsInRange_counted.
  destruct (counted dEnv remoteHash ancHash) as [behind [err|]]; simpl; [done|].
  rewrite countCommitsInRange_counted.
  destruct (counted dEnv headHash ancHash) as [ahead [err|]]; simpl;
    by rewrite <- app_assoc.
Qed.

(** X4: when the walk from the upstream head fails, its error leaves
    [printRemoteRefTrackingInfo] and no iterator is asked for the local
    head. *)
Theorem upstream_walk_failure_stops (headHash remoteHash ancHash : Hash) (n : Z) err tr :
  headHash <> remoteHash ->
  counted dEnv remoteHash ancHash = (n, Some err) ->
  aheadBehind dEnv headHash remoteHash ancHash tr
  = (inl (Some err), tr ++ [GetTopologicalOrderIterator_called remoteHash]).
Proof.
  intros Hne Hrun. rewrite aheadBehind_exec, decide_True, Hrun by done. done.
Qed.

(** ** printRemoteRefTrackingInfo *)

(** Either the function returns before line 212 without a trace, or both
    heads were resolved. *)
Lemma printRemoteRefTrackingInfo_cases (tr : list StatusEvent) :
  (exists r, exec (printRemoteRefTrackingInfo dEnv) tr = (r, tr))
  \/ (exists headCommit headHash remoteTrackingRef remoteCommit remoteHash,
        HeadsResolved dEnv headCommit headHash remoteTrackingRef remoteCommit remoteHash).
Proof.
  unfold printRemoteRefTrackingInfo. autounfold with body.
  destruct (CWBHeadRef dEnv) as [e|headRef] eqn:H1; simpl; [by eauto|].
  destruct (GetBranches dEnv) as [e|branches] eqn:H2; simpl; [by eauto|].
  destruct (branches !! GetPath dEnv headRef) as [upstream|] eqn:H3; simpl; [|by eauto].
  destruct (NewCommitSpec dEnv (GetPath dEnv headRef)) as [e|hspec] eqn:H4; simpl; [by eauto|].
  destruct (Resolve dEnv hspec headRef) as [e|hc] eqn:H5; simpl; [by eauto|].
  destruct (HashOf dEnv hc) as [e|hh] eqn:H6; simpl; [by eauto|].
  destruct (GetRemotes dEnv) as [e|remotes] eqn:H7; simpl; [by eauto|].
  destruct (remotes !! Remote_ upstream) as [remote|] eqn:H8; simpl; [|by eauto].
  destruct (GetTrackingRef dEnv (Merge upstream) remote) as [e|rref] eqn:H9; simpl;
    [by eauto|].
  destruct (NewCommitSpec dEnv (GetPath dEnv rref)) as [e|rspec] eqn:H10; simpl; [by eauto|].
  destruct (Resolve dEnv rspec rref) as [e|rc] eqn:H11; simpl; [by eauto|].
  destruct (HashOf dEnv rc) as [e|rh] eqn:H12; simpl; [by eauto|].
  right. exists hc, hh, rref, rc, rh. by econstructor.
Qed.

(** X5: a branch without an upstream is passed over in silence: the
    result is nil and nothing is printed, looked up or walked. For an
    upstream on a remote that is not among the remotes, the local head is
    resolved and hashed first and an error of that is what comes back;
    otherwise the result is nil; either way nothing is printed and neither
    the ancestor nor a walk is asked for. *)
Theorem untracked_branch_is_silent headRef branches :
  CWBHeadRef dEnv = inr headRef ->
  GetBranches dEnv = inr branches ->
  (branches !! GetPath dEnv headRef = None ->
   run (printRemoteRefTrackingInfo dEnv) = (None, []))
  /\ (forall upstream remotes,
        branches !! GetPath dEnv headRef = Some upstream ->
        GetRemotes dEnv = inr remotes ->
        remotes !! Remote_ upstream = None ->
        run (printRemoteRefTrackingInfo dEnv)
        = (match NewCommitSpec dEnv (GetPath dEnv headRef) with
           | inl err => Some (Ext err)
           | inr headCommitSpec =>
               match Resolve dEnv headCommitSpec headRef with
               | inl err => Some (Ext err)
               | inr headCommit =>
                   match HashOf dEnv headCommit with
                   | inl err => Some (Ext err)
                   | inr _ => None
                   end
               end
           end, [])).
Proof.
  intros Href Hbr. split.
  - intros Hnone. unfold run, printRemoteRefTrackingInfo. autounfold with body.
    by rewrite Href, Hbr; simpl; rewrite Hnone.
  - intros upstream remotes Hup Hrem Hnone.
    unfold run, printRemoteRefTrackingInfo. autounfold with body.
    rewrite Href, Hbr; simpl. rewrite Hup.
    destruct (NewCommitSpec dEnv (GetPath dEnv headRef)) as [e|hspec]; simpl; [done|].
    destruct (Resolve dEnv hspec headRef) as [e|hc]; simpl; [done|].
    destruct (HashOf dEnv hc) as [e|hh]; simpl; [done|].
    rewrite Hrem; simpl. by rewrite Hnone.
Qed.

(** X6: [printRemoteRefTrackingInfo] writes at most one line, as the last
    thing it does, and the line is a tracking message; when it returns an
    error it has written nothing. *)
Theorem tracking_prints_last r (log : list StatusEvent) :
  run (printRemoteRefTrackingInfo dEnv) = (r, log) ->
  (r <> None -> Forall (fun e => ~ is_output e) log)
  /\ (Forall (fun e => ~ is_output e) log
      \/ exists pre name ahead behind,
          r = None
          /\ log = pre ++ [Println (Lit (getRemoteTrackingMsg name ahead behind))]
          /\ Forall (fun e => ~ is_output e) pre).
Proof.
  intros Hrun.
  assert (Hcases : Forall (fun e : StatusEvent => ~ is_output e) log
      \/ exists pre name ahead behind,
          r = None
          /\ log = pre ++ [Println (Lit (getRemoteTrackingMsg name ahead behind))]
          /\ Forall (fun e : StatusEvent => ~ is_output e) pre).
  { unfold run in Hrun.
    destruct (printRemoteRefTrackingInfo_cases [])
      as [[r' Hq]|(hc & hh & rref & rc & rh & Hres)].
    { rewrite Hq in Hrun. simplify_eq. by left. }
    rewrite (printRemoteRefTrackingInfo_resolved _ _ _ _ _ _ _ Hres) in Hrun.
    destruct (GetCommitAncestor dEnv hc rc) as [e|anc].
    { simplify_eq. left. repeat constructor; simpl; tauto. }
    destruct (HashOf dEnv anc) as [e|c].
    { simplify_eq. left. repeat constructor; simpl; tauto. }
    rewrite aheadBehind_exec in Hrun.
    destruct (decide (hh <> rh)).
    - destruct (counted dEnv rh c) as [b [err|]].
      { simplify_eq. left. repeat constructor; simpl; tauto. }
      destruct (counted dEnv hh c) as [a [err|]].
      { simplify_eq. left. repeat constructor; simpl; tauto. }
      simplify_eq. right. eexists _, _, _, _. split_and!; [done..|].
      repeat constructor; simpl; tauto.
    - simplify_eq. right. eexists _, _, _, _. split_and!; [done..|].
      repeat constructor; simpl; tauto. }
  split; [|exact Hcases].
  intros Herr. destruct Hcases as [Hquiet|(pre & name & a & b & -> & _)]; done.
Qed.

(** ** What the functions of the status command can emit *)

Lemma tracking_emits_only (P : StatusEvent -> Prop) :
  (forall a b, P (GetCommitAncestor_called a b)) ->
  (forall start, P (GetTopologicalOrderIterator_called start)) ->
  (forall t, P (Println t)) ->
  emits_only P (printRemoteRefTrackingInfo dEnv).
Proof.
  intros Hanc Hwalk Hprint.
  assert (Hcount : forall start target, emits_only P (countCommitsInRange dEnv start target)).
  { intros start target. unfold countCommitsInRange. repeat emits_step. }
  assert (Hblock : forall h r c, emits_only P (aheadBehind dEnv h r c)).
  { intros h r c. unfold aheadBehind. repeat first [ apply Hcount | emits_step ]. }
  unfold printRemoteRefTrackingInfo. repeat first [ apply Hblock | emits_step ].
Qed.

Lemma PrintStatus_keeps_closeFunc sqlCtx stagedTbls notStagedTbls showIgnoredTables stat :
  emits_only (fun e : StatusEvent => e <> closeFunc)
    (PrintStatus dEnv sqlCtx stagedTbls notStagedTbls showIgnoredTables stat).
Proof.
  unfold PrintStatus.
  repeat first [ apply tracking_emits_only; done | emits_step ].
Qed.

Lemma ExecBody_keeps_closeFunc sqlCtx args :
  emits_only (fun e : StatusEvent => e <> closeFunc) (ExecBody dEnv sqlCtx args).
Proof.
  unfold ExecBody, handleStatusVErr.
  repeat first [ apply PrintStatus_keeps_closeFunc | emits_step ].
Qed.

(** ** PrintStatus *)

(** X7: when [PrintStatus] returns nil, the staged diffs were printed and
    then the unstaged ones, the latter told the count of the former, and
    the line "nothing to commit, working tree clean" ends the output exactly
    when no merge is active and the count that came back is [0]. *)
Theorem PrintStatus_success sqlCtx stagedTbls notStagedTbls showIgnoredTables stat tr tr' :
  exec (PrintStatus dEnv sqlCtx stagedTbls notStagedTbls showIgnoredTables stat) tr
  = (None, tr') ->
  exists pre mergeActive n,
    isMergeActive dEnv = inr mergeActive
    /\ PrintDiffsNotStaged dEnv sqlCtx notStagedTbls true showIgnoredTables
         (printStagedDiffs dEnv stagedTbls true) stat = inr n
    /\ tr' = pre
             ++ [printStagedDiffs_called stagedTbls true;
                 PrintDiffsNotStaged_called notStagedTbls true showIgnoredTables
                   (printStagedDiffs dEnv stagedTbls true) stat]
             ++ (if negb mergeActive && bool_decide (n = 0%Z)
                 then [Println (Lit "nothing to commit, working tree clean")]
                 else []).
Proof.
  unfold PrintStatus, exec, bind, call, try, emit, pure, Return.
  destruct (CWBHeadRef dEnv) as [e|headRef]; [done|].
  destruct (exec (printRemoteRefTrackingInfo dEnv) _) as [[err|] tr1]; [done|].
  destruct (isMergeActive dEnv) as [e|mergeActive]; [done|].
  lazymatch goal with
  | |- context [(if mergeActive then ?a else ?b) tr1] =>
      assert (Hhdr : exists out, (if mergeActive then a else b) tr1 = (inr tt, tr1 ++ out))
  end.
  { destruct mergeActive, (HasConflicts dEnv stat), (HasConstraintViolations dEnv stat);
      simpl; first [by eexists | exists []; by rewrite app_nil_r]. }
  destruct Hhdr as [out ->].
  destruct (PrintDiffsNotStaged dEnv sqlCtx notStagedTbls true showIgnoredTables
              (printStagedDiffs dEnv stagedTbls true) stat) as [e|n]; [done|].
  intros Hrun. exists (tr1 ++ out), mergeActive, n.
  split; [done|]. split; [done|].
  destruct (negb mergeActive && bool_decide (n = 0%Z)); injection Hrun as <-;
    rewrite <- ?app_assoc; simpl; by rewrite ?app_nil_r.
Qed.

(** X8: when [PrintStatus] returns an error, either no diff was printed, or
    the error is that of [PrintDiffsNotStaged]. *)
Theorem PrintStatus_error sqlCtx stagedTbls notStagedTbls showIgnoredTables stat tr tr' err :
  exec (PrintStatus dEnv sqlCtx stagedTbls notStagedTbls showIgnoredTables stat) tr
  = (Some err, tr') ->
  exists out,
    tr' = tr ++ out
    /\ (Forall (fun e => ~ is_diff_printer e) out
        \/ exists e,
            PrintDiffsNotStaged dEnv sqlCtx notStagedTbls true showIgnoredTables
              (printStagedDiffs dEnv stagedTbls true) stat = inl e
            /\ err = Ext e).
Proof.
  unfold PrintStatus, exec, bind, call, try, emit, pure, Return.
  destruct (CWBHeadRef dEnv) as [e|headRef].
  { intros Hrun. injection Hrun as _ <-. exists []. rewrite app_nil_r. split; [done|by left]. }
  destruct (emits_only_exec (fun e : StatusEvent => ~ is_diff_printer e)
              (printRemoteRefTrackingInfo dEnv)
              (tr ++ [Printf (branchHeader dEnv) [GetPath dEnv headRef]]))
    as (out1 & Hout1 & Hquiet1).
  { apply tracking_emits_only; intros; simpl; tauto. }
  destruct (exec (printRemoteRefTrackingInfo dEnv) _) as [[err1|] tr1];
    simpl in Hout1; subst tr1.
  { intros Hrun. injection Hrun as _ <-. eexists. rewrite <- app_assoc. split; [done|left].
    apply Forall_app. split; [|done]. repeat constructor; simpl; tauto. }
  destruct (isMergeActive dEnv) as [e|mergeActive].
  { intros Hrun. injection Hrun as _ <-. eexists. rewrite <- app_assoc. split; [done|left].
    apply Forall_app. split; [|done]. repeat constructor; simpl; tauto. }
  lazymatch goal with
  | |- context [(if mergeActive then ?a else ?b) ?t] =>
      assert (Hhdr : exists out, (if mergeActive then a else b) t = (inr tt, t ++ out))
  end.
  { destruct mergeActive, (HasConflicts dEnv stat), (HasConstraintViolations dEnv stat);
      simpl; first [by eexists | exists []; by rewrite app_nil_r]. }
  destruct Hhdr as [out ->].
  destruct (PrintDiffsNotStaged dEnv sqlCtx notStagedTbls true showIgnoredTables
              (printStagedDiffs dEnv stagedTbls true) stat) as [e|n].
  - intros Hrun. injection Hrun as <- <-.
    eexists. rewrite <- !app_assoc. split; [reflexivity|]. right. by eexists.
  - destruct (negb mergeActive && bool_decide (n = 0%Z)); discriminate.
Qed.

(** ** Exec *)

Lemma ExecBody_outcome sqlCtx args tr out tr' :
  exec (ExecBody dEnv sqlCtx args) tr = (out, tr') ->
  match out with
  | Returned code => code = 0%Z \/ code = 1%Z
  | Exited code => ParseArgsOrDie dEnv args = inl code
  end.
Proof.
  unfold ExecBody, handleStatusVErr, exec, bind, call, try, emit, pure, Return.
  destruct (ParseArgsOrDie dEnv args) as [code|apr]; [by intros; simplify_eq|].
  destruct (Roots dEnv) as [e|roots]; simpl; [intros; simplify_eq; by right|].
  destruct (GetStagedUnstagedTableDeltas dEnv roots) as [e|[staged notStaged]]; simpl;
    [intros; simplify_eq; by right|].
  destruct (WorkingSet dEnv) as [ws wsErr].
  destruct wsErr as [we|]; simpl;
    destruct (GetMergeArtifactStatus dEnv ws) as [stat asErr];
    destruct asErr as [ae|]; simpl;
    unfold exec;
    match goal with
    | |- context [PrintStatus ?a ?b ?c ?d ?e ?f ?t] =>
        destruct (PrintStatus a b c d e f t) as [[[err|]|[err|]] tr1]
    end; simpl; intros; simplify_eq; auto.
Qed.

(** X9: when [Exec] returns, the exit code is [0] or [1]; the process
    leaves by [os.Exit] only from [cli.ParseArgsOrDie], with its code. *)
Theorem Exec_exit_codes (commandStr : string) (args : list string) out log :
  run (Exec dEnv commandStr args) = (out, log) ->
  match out with
  | Returned code => code = 0%Z \/ code = 1%Z
  | Exited code =>
      (exists sqlCtx hasCloseFunc, QueryEngine dEnv = inr (sqlCtx, hasCloseFunc))
      /\ ParseArgsOrDie dEnv args = inl code
  end.
Proof.
  unfold run, Exec.
  destruct (QueryEngine dEnv) as [e|[sqlCtx hasCloseFunc]].
  { unfold exec, bind, emit, Return. simpl. intros. simplify_eq. by right. }
  unfold exec at 1. unfold bind, call.
  destruct (exec (ExecBody dEnv sqlCtx args) []) as [o trb] eqn:Hbody.
  apply ExecBody_outcome in Hbody.
  destruct o as [code|code]; simpl.
  - destruct hasCloseFunc; simpl; intros; by simplify_eq.
  - intros. simplify_eq. split; [by eauto|done].
Qed.

(** X10: the deferred [closeFunc] runs once, as the last thing, when the
    query engine gave one and [Exec] returns; it does not run when the
    query engine failed or gave none, nor when the process leaves by
    [os.Exit]. *)
Theorem closeFunc_runs_last (commandStr : string) (args : list string) out log :
  run (Exec dEnv commandStr args) = (out, log) ->
  exists body,
    Forall (fun e => e <> closeFunc) body
    /\ log = body ++ match QueryEngine dEnv, out with
                     | inr (_, true), Returned _ => [closeFunc]
                     | _, _ => []
                     end.
Proof.
  unfold run, Exec.
  destruct (QueryEngine dEnv) as [e|[sqlCtx hasCloseFunc]].
  { unfold exec, bind, emit, Return. simpl. intros. simplify_eq.
    eexists. split; [|by rewrite app_nil_r]. by repeat constructor. }
  unfold exec at 1. unfold bind, call.
  destruct (emits_only_exec _ _ [] (ExecBody_keeps_closeFunc sqlCtx args))
    as (body & Hbody & Hkeeps).
  destruct (exec (ExecBody dEnv sqlCtx args) []) as [o trb]. simpl in Hbody. subst trb.
  destruct o as [code|code], hasCloseFunc; simpl; intros Hrun;
    injection Hrun as <- <-; exists body; by rewrite ?app_nil_r.
Qed.

End StatusMore.

Section StatusSwap.
Import commands.
Context {Hash : Type} `{EqDecision Hash}.
Context {Commit Ref Remote CommitSpec : Type}.
Context {RootsT TableDelta WorkingSetT ArtifactStatus SqlContext : Type}.

Abbreviation SwapCollab :=
  (@Collaborators Hash Commit Ref Remote CommitSpec RootsT TableDelta
     WorkingSetT ArtifactStatus SqlContext).

(** X3: with the hash of the common ancestor held fixed, exchanging the
    two heads exchanges the two counters. For the whole function: let
    [dEnv'] be a repository with the same walks in which the local and
    the upstream head of [dEnv] are exchanged, and let
    [doltdb.GetCommitAncestor] give an ancestor of the same hash for both
    orders of the two commits; then [dEnv'] reports the counters of [dEnv]
    exchanged. (The ancestor is looked up anew from the exchanged commits,
    so without that premise nothing of the kind follows.) *)
Theorem counters_swap (dEnv dEnv' : SwapCollab) :
  (forall headHash remoteHash ancHash ahead behind tr tr',
      aheadBehind dEnv headHash remoteHash ancHash tr = (inr (ahead, behind), tr') ->
      exists tr'',
        aheadBehind dEnv remoteHash headHash ancHash tr = (inr (behind, ahead), tr''))
  /\ (forall headCommit headHash remoteTrackingRef remoteCommit remoteHash remoteTrackingRef'
        ancCommit ancCommit' ancHash ahead behind tr1,
      HeadsResolved dEnv headCommit headHash remoteTrackingRef remoteCommit remoteHash ->
      HeadsResolved dEnv' remoteCommit remoteHash remoteTrackingRef' headCommit headHash ->
      (forall start,
          GetTopologicalOrderIterator dEnv' start = GetTopologicalOrderIterator dEnv start) ->
      GetCommitAncestor dEnv headCommit remoteCommit = inr ancCommit ->
      HashOf dEnv ancCommit = inr ancHash ->
      GetCommitAncestor dEnv' remoteCommit headCommit = inr ancCommit' ->
      HashOf dEnv' ancCommit' = inr ancHash ->
      aheadBehind dEnv headHash remoteHash ancHash
        [GetCommitAncestor_called headCommit remoteCommit]
      = (inr (ahead, behind), tr1) ->
      run (printRemoteRefTrackingInfo dEnv)
      = (None, tr1 ++ [Println (Lit (getRemoteTrackingMsg (GetPath dEnv remoteTrackingRef)
                                       ahead behind))])
      /\ exists tr2,
          run (printRemoteRefTrackingInfo dEnv')
          = (None, tr2 ++ [Println (Lit (getRemoteTrackingMsg
                                           (GetPath dEnv' remoteTrackingRef')
                                           behind ahead))])).
Proof.
  assert (Hswap : forall (d d' : SwapCollab),
             (forall start,
                 GetTopologicalOrderIterator d' start = GetTopologicalOrderIterator d start) ->
             forall h r c a b tr tr0 tr',
               aheadBehind d h r c tr = (inr (a, b), tr') ->
               exists tr'', aheadBehind d' r h c tr0 = (inr (b, a), tr'')).
  { intros d d' Hsame h r c a b tr tr0 tr'. rewrite !aheadBehind_exec.
    assert (Hcount : forall s t, counted d' s t = counted d s t)
      by (intros; by rewrite !counted_eq, Hsame).
    rewrite !Hcount. intros Hrun.
    destruct (decide (h <> r)) as [Hne|Heq].
    - rewrite decide_True by congruence.
      destruct (counted d r c) as [b' [err|]]; [done|].
      destruct (counted d h c) as [a' [err|]]; [done|].
      injection Hrun as <- <- _. eauto.
    - rewrite decide_False by (intros Hne; apply Heq; congruence).
      injection Hrun as <- <- _. eauto. }
  split.
  - intros h r c a b tr tr'. by apply Hswap.
  - intros hc hh ref rc rh ref' anc anc' c a b tr1 Hres Hres' Hsame Hanc Hhash Hanc' Hhash' Hab.
    split.
    + unfold run. rewrite (printRemoteRefTrackingInfo_resolved dEnv _ _ _ _ _ _ Hres).
      rewrite Hanc, Hhash. simpl app. by rewrite Hab.
    + unfold run. rewrite (printRemoteRefTrackingInfo_resolved dEnv' _ _ _ _ _ _ Hres').
      rewrite Hanc', Hhash'.
      destruct (Hswap dEnv dEnv' Hsame _ _ _ _ _ _
                  ([] ++ [GetCommitAncestor_called rc hc]) _ Hab) as [tr2 ->].
      by exists tr2.
Qed.

End StatusSwap.

(** * Further properties of the commit procedure *)

Section CommitMore.
Import dprocedures.
Context {Hash Commit Roots PendingCommit Time Transaction : Type}.

Variable ctx : @Collaborators Hash Commit Roots PendingCommit Time Transaction.

Abbreviation WriterEvent := (@event Roots PendingCommit Time Transaction).

(** Line 139 is reached, with everything that was resolved on the way. *)
Ltac rewrite_responses :=
  repeat lazymatch goal with
         | Heq : ?x = _ |- context [?x] => rewrite Heq
         end.

Ltac reached_with_inputs :=
  right;
  lazymatch goal with
  | apr : ArgParseResults, Hroots : GetRoots ctx _ = Some ?r0
    |- context [NewPendingCommit_called _ ?r ?p] => exists apr, r0, r, p
  end;
  unfold staged_from, author_of, message_of, date_of, flags_of;
  split_and!;
  lazymatch goal with
  | |- _ = committed _ _ _ _ =>
      unfold committed; simpl;
      destruct (NewPendingCommit _ _ _ _) as [?|[?|]]; simpl;
        [done| |by destruct (Contains _ (SkipEmptyFlag ctx))];
      destruct (DoltCommit _ _ _ _); simpl; [done|];
      by destruct (HashOf _ _)
  | |- _ => rewrite_responses; simpl; by eauto 10
  end.

(** [doDoltCommit] either returns an error before anything is asked of the
    session's writer, or reaches line 139 after every step before it went
    through. *)
Lemma doDoltCommit_inputs (args : list string) :
  (exists err, run (doDoltCommit ctx args) = (("", false, Some err), []))
  \/ (exists apr roots0 roots props,
        CheckAccess ctx = None
        /\ Parse ctx args = inr apr
        /\ VerifyCommitArgs ctx apr = None
        /\ GetRoots ctx (GetCurrentDatabase ctx) = Some roots0
        /\ staged_from ctx apr roots0 roots
        /\ author_of ctx apr props
        /\ message_of ctx apr props
        /\ date_of ctx apr props
        /\ flags_of ctx apr props
        /\ run (doDoltCommit ctx args) = committed ctx apr roots props).
Proof.
  unfold run, doDoltCommit. autounfold with body.
  destruct (CheckAccess ctx) as [e|] eqn:Haccess; simpl; [by eauto|].
  destruct (Parse ctx args) as [e|apr] eqn:Hargs; simpl; [by eauto|].
  destruct (VerifyCommitArgs ctx apr) as [e|] eqn:Hverify; simpl; [by eauto|].
  destruct (GetRoots ctx (GetCurrentDatabase ctx)) as [roots0|] eqn:Hroots; simpl;
    [|by eauto].
  destruct (Contains apr (UpperCaseAllFlag ctx)) eqn:Hupper;
    [destruct (StageAllTables ctx roots0 true) as [e|roots] eqn:Hstage
    |destruct (Contains apr (AllFlag ctx)) eqn:Hall;
     [destruct (StageModifiedAndDeletedTables ctx roots0) as [e|roots] eqn:Hstage|]];
    simpl; try (by eauto).
  all: destruct (GetValue apr (AuthorParam ctx)) as [authorStr|] eqn:Hauthor;
    [destruct (ParseAuthor ctx authorStr) as [e|[name email]] eqn:Hparse|];
    simpl; try (by eauto).
  all: destruct (GetValue apr (MessageArg ctx)) as [msg|] eqn:Hmsg;
    [|destruct (Contains apr (AmendFlag ctx)) eqn:Hamend;
      [destruct (GetHeadCommit ctx (GetCurrentDatabase ctx)) as [e|commit] eqn:Hhead;
       [|destruct (GetCommitMeta ctx commit) as [e|commitMeta] eqn:Hmeta]|]];
    simpl; try (by eauto).
  all: destruct (GetValue apr (DateParam ctx)) as [commitTimeStr|] eqn:Hdate;
    [destruct (ParseDate ctx commitTimeStr) as [e|t] eqn:Htime|];
    simpl; try (by eauto).
  all: lazymatch goal with |- _ => reached_with_inputs end.
Qed.

(** When [dSess.NewPendingCommit] was called, every step before it went
    through, and the run is [committed] for the arguments of the call. *)
Lemma doDoltCommit_pending_inputs (args : list string) dbName roots props :
  NewPendingCommit_called dbName roots props ∈ (run (doDoltCommit ctx args)).2 ->
  exists apr roots0,
    dbName = GetCurrentDatabase ctx
    /\ CheckAccess ctx = None
    /\ Parse ctx args = inr apr
    /\ VerifyCommitArgs ctx apr = None
    /\ GetRoots ctx (GetCurrentDatabase ctx) = Some roots0
    /\ staged_from ctx apr roots0 roots
    /\ date_of ctx apr props
    /\ flags_of ctx apr props
    /\ run (doDoltCommit ctx args) = committed ctx apr roots props.
Proof.
  intros Hin.
  destruct (doDoltCommit_inputs args)
    as [[err Hrun]|(apr & roots0 & roots' & props' & Hacc & Hargs & Hver & Hroots
                    & Hst & _ & _ & Hdate & Hflags & Hrun)];
    rewrite Hrun in Hin; simpl in Hin.
  { by apply elem_of_nil in Hin. }
  assert (dbName = GetCurrentDatabase ctx /\ roots = roots' /\ props = props') as (-> & -> & ->).
  { unfold committed in Hin.
    destruct (NewPendingCommit _ _ _ _) as [?|[?|]]; simpl in Hin;
      repeat (apply elem_of_cons in Hin as [Hin|Hin]; [by simplify_eq|]);
      by apply elem_of_nil in Hin. }
  by exists apr, roots0.
Qed.

(** X11: the roots handed to [dSess.NewPendingCommit] are those of
    [actions.StageAllTables] (called with [true]) when the upper-case all
    flag is set, whether or not the all flag is set too; those of
    [actions.StageModifiedAndDeletedTables] when only the all flag is set;
    and the roots of the session, untouched, when neither is. *)
Theorem staged_roots (args : list string) apr dbName roots props :
  Parse ctx args = inr apr ->
  NewPendingCommit_called dbName roots props ∈ (run (doDoltCommit ctx args)).2 ->
  exists roots0,
    GetRoots ctx (GetCurrentDatabase ctx) = Some roots0
    /\ (Contains apr (UpperCaseAllFlag ctx) = true ->
        StageAllTables ctx roots0 true = inr roots)
    /\ (Contains apr (UpperCaseAllFlag ctx) = false ->
        Contains apr (AllFlag ctx) = true ->
        StageModifiedAndDeletedTables ctx roots0 = inr roots)
    /\ (Contains apr (UpperCaseAllFlag ctx) = false ->
        Contains apr (AllFlag ctx) = false ->
        roots = roots0).
Proof.
  intros Hargs Hin.
  destruct (doDoltCommit_pending_inputs _ _ _ _ Hin)
    as (apr' & roots0 & _ & _ & Hargs' & _ & Hroots & Hst & _).
  assert (apr' = apr) as -> by congruence.
  exists roots0. unfold staged_from in Hst.
  split; [done|].
  destruct (Contains apr (UpperCaseAllFlag ctx)), (Contains apr (AllFlag ctx));
    split_and!; intros; done.
Qed.

(** X12: the date handed to [dSess.NewPendingCommit] is the parsed date
    argument when there is one and the query time of the context otherwise;
    the four flags are those of the arguments, and the database is the
    current one. *)
Theorem commit_date_and_flags (args : list string) apr dbName roots props :
  Parse ctx args = inr apr ->
  NewPendingCommit_called dbName roots props ∈ (run (doDoltCommit ctx args)).2 ->
  dbName = GetCurrentDatabase ctx
  /\ (forall commitTimeStr,
        GetValue apr (DateParam ctx) = Some commitTimeStr ->
        ParseDate ctx commitTimeStr = inr (Date props))
  /\ (GetValue apr (DateParam ctx) = None -> Date props = QueryTime ctx)
  /\ AllowEmpty props = Contains apr (AllowEmptyFlag ctx)
  /\ SkipEmpty props = Contains apr (SkipEmptyFlag ctx)
  /\ Amend props = Contains apr (AmendFlag ctx)
  /\ Force props = Contains apr (ForceFlag ctx).
Proof.
  intros Hargs Hin.
  destruct (doDoltCommit_pending_inputs _ _ _ _ Hin)
    as (apr' & roots0 & -> & _ & Hargs' & _ & _ & _ & Hdate & (Ha & Hs & Hm & Hf) & _).
  assert (apr' = apr) as -> by congruence.
  unfold date_of in Hdate.
  split_and!; try done.
  - intros s Hs'. by rewrite Hs' in Hdate.
  - intros Hnone. by rewrite Hnone in Hdate.
Qed.

(** X13: [dSess.DoltCommit] is called at most once, with the transaction
    of the session and with the pending commit that
    [dSess.NewPendingCommit] had just returned, and with nothing else. *)
Theorem write_follows_pending (args : list string) dbName tx pendingCommit :
  DoltCommit_called dbName tx pendingCommit ∈ (run (doDoltCommit ctx args)).2 ->
  exists roots props,
    NewPendingCommit ctx dbName roots props = inr (Some pendingCommit)
    /\ tx = GetTransaction ctx
    /\ (run (doDoltCommit ctx args)).2
       = [NewPendingCommit_called dbName roots props;
          DoltCommit_called dbName tx pendingCommit].
Proof.
  intros Hin.
  destruct (doDoltCommit_inputs args)
    as [[err Hrun]|(apr & roots0 & roots & props & _ & _ & _ & _ & _ & _ & _ & _ & _ & Hrun)];
    rewrite Hrun in Hin |- *; simpl in Hin.
  { by apply elem_of_nil in Hin. }
  unfold committed in Hin |- *.
  destruct (NewPendingCommit _ _ _ _) as [?|[pc|]] eqn:Hpc; simpl in Hin |- *;
    repeat (apply elem_of_cons in Hin as [Hin|Hin]; [simplify_eq|]);
    try (by apply elem_of_nil in Hin).
  by exists roots, props.
Qed.

(** X14: a return without error and without [skipped] comes from a
    commit that was written: the hash is the string of the hash of the
    commit that [dSess.DoltCommit] returned for the pending commit. *)
Theorem created_was_written (args : list string) (h : string) :
  (run (doDoltCommit ctx args)).1 = (h, false, None) ->
  exists roots props pendingCommit newCommit hash,
    NewPendingCommit ctx (GetCurrentDatabase ctx) roots props = inr (Some pendingCommit)
    /\ DoltCommit ctx (GetCurrentDatabase ctx) (GetTransaction ctx) pendingCommit
       = inr newCommit
    /\ HashOf ctx newCommit = inr hash
    /\ h = HashString ctx hash
    /\ (run (doDoltCommit ctx args)).2
       = [NewPendingCommit_called (GetCurrentDatabase ctx) roots props;
          DoltCommit_called (GetCurrentDatabase ctx) (GetTransaction ctx) pendingCommit].
Proof.
  destruct (doDoltCommit_inputs args)
    as [[err Hrun]|(apr & roots0 & roots & props & _ & _ & _ & _ & _ & _ & _ & _ & _ & Hrun)];
    rewrite Hrun; simpl; [done|].
  unfold committed.
  destruct (NewPendingCommit _ _ _ _) as [?|[pc|]] eqn:Hpc; simpl; [done| |by case_match].
  destruct (DoltCommit _ _ _ _) as [?|newCommit] eqn:Hc; [done|].
  destruct (HashOf ctx newCommit) as [?|hash] eqn:Hh; [done|].
  intros Hret. simplify_eq. by exists roots, props, pc, newCommit, hash.
Qed.

(** X15: a skipped return comes only from a nil pending commit under the
    skip-empty flag, and then [dSess.DoltCommit] was not called. *)
Theorem skipped_only_when_empty (args : list string) (h : string) (err : option error) :
  (run (doDoltCommit ctx args)).1 = (h, true, err) ->
  exists apr roots props,
    Parse ctx args = inr apr
    /\ Contains apr (SkipEmptyFlag ctx) = true
    /\ NewPendingCommit ctx (GetCurrentDatabase ctx) roots props = inr None
    /\ (run (doDoltCommit ctx args)).2
       = [NewPendingCommit_called (GetCurrentDatabase ctx) roots props].
Proof.
  destruct (doDoltCommit_inputs args)
    as [[e Hrun]|(apr & roots0 & roots & props & _ & Hargs & _ & _ & _ & _ & _ & _ & _ & Hrun)];
    rewrite Hrun; simpl; [done|].
  unfold committed.
  destruct (NewPendingCommit _ _ _ _) as [?|[pc|]] eqn:Hpc; simpl; [done|by repeat case_match|].
  destruct (Contains apr (SkipEmptyFlag ctx)) eqn:Hskip; [|done].
  intros _. by exists apr, roots, props.
Qed.

(** X16: when [doDoltCommit] returns an error after [dSess.DoltCommit]
    was called, the error is that of [dSess.DoltCommit] or, the commit
    having been written, that of hashing the new commit. *)
Theorem error_after_write (args : list string) h skipped err dbName tx pendingCommit :
  (run (doDoltCommit ctx args)).1 = (h, skipped, Some err) ->
  DoltCommit_called dbName tx pendingCommit ∈ (run (doDoltCommit ctx args)).2 ->
  (exists e, DoltCommit ctx dbName tx pendingCommit = inl e /\ err = Ext e)
  \/ exists newCommit e,
      DoltCommit ctx dbName tx pendingCommit = inr newCommit
      /\ HashOf ctx newCommit = inl e
      /\ err = Ext e.
Proof.
  destruct (doDoltCommit_inputs args)
    as [[e Hrun]|(apr & roots0 & roots & props & _ & _ & _ & _ & _ & _ & _ & _ & _ & Hrun)];
    rewrite Hrun; simpl.
  { intros _ Hin. by apply elem_of_nil in Hin. }
  unfold committed.
  destruct (NewPendingCommit _ _ _ _) as [?|[pc|]] eqn:Hpc; simpl; intros Hret Hin;
    repeat (apply elem_of_cons in Hin as [Hin|Hin]; [simplify_eq|]);
    try (by apply elem_of_nil in Hin).
  destruct (DoltCommit _ _ _ _) as [e|newCommit] eqn:Hc.
  - left. simplify_eq. by exists e.
  - destruct (HashOf ctx newCommit) as [e|hash] eqn:Hh; [|done].
    right. simplify_eq. by exists newCommit, e.
Qed.

(** X17: arguments that [cli.VerifyCommitArgs] rejects, a database whose
    roots cannot be loaded, a staging step that fails and a date that does
    not parse each make [doDoltCommit] return an error with nothing asked
    of the session's writer. *)
Theorem invalid_inputs_stop_early (args : list string) apr :
  Parse ctx args = inr apr ->
  (VerifyCommitArgs ctx apr <> None
   \/ GetRoots ctx (GetCurrentDatabase ctx) = None
   \/ (exists roots0 e,
         GetRoots ctx (GetCurrentDatabase ctx) = Some roots0
         /\ Contains apr (UpperCaseAllFlag ctx) = true
         /\ StageAllTables ctx roots0 true = inl e)
   \/ (exists roots0 e,
         GetRoots ctx (GetCurrentDatabase ctx) = Some roots0
         /\ Contains apr (UpperCaseAllFlag ctx) = false
         /\ Contains apr (AllFlag ctx) = true
         /\ StageModifiedAndDeletedTables ctx roots0 = inl e)
   \/ (exists commitTimeStr e,
         GetValue apr (DateParam ctx) = Some commitTimeStr
         /\ ParseDate ctx commitTimeStr = inl e)) ->
  exists err, run (doDoltCommit ctx args) = (("", false, Some err), []).
Proof.
  intros Hargs Hbad.
  destruct (doDoltCommit_inputs args)
    as [Hfail|(apr' & roots0 & roots & props & _ & Hargs' & Hver & Hroots & Hst & _ & _
               & Hdate & _ & _)]; [done|].
  assert (apr' = apr) as -> by congruence.
  exfalso. unfold staged_from in Hst. unfold date_of in Hdate.
  destruct Hbad as [Hbad|[Hbad|[(r0 & e & Hr & Hflag & Hbad)|[(r0 & e & Hr & Hf1 & Hf2 & Hbad)
                                                              |(s & e & Hs & Hbad)]]]].
  - done.
  - congruence.
  - rewrite Hflag in Hst. congruence.
  - rewrite Hf1, Hf2 in Hst. congruence.
  - rewrite Hs in Hdate. congruence.
Qed.

(** X18: an error of the staging step is not returned as it is: what
    comes back is [fmt.Errorf] with the text of the error as its format. *)
Theorem staging_error_is_reformatted (args : list string) apr roots0 e :
  CheckAccess ctx = None ->
  Parse ctx args = inr apr ->
  VerifyCommitArgs ctx apr = None ->
  GetRoots ctx (GetCurrentDatabase ctx) = Some roots0 ->
  (Contains apr (UpperCaseAllFlag ctx) = true /\ StageAllTables ctx roots0 true = inl e)
  \/ (Contains apr (UpperCaseAllFlag ctx) = false
      /\ Contains apr (AllFlag ctx) = true
      /\ StageModifiedAndDeletedTables ctx roots0 = inl e) ->
  run (doDoltCommit ctx args) = (("", false, Some (fmt_Errorf e [])), []).
Proof.
  intros Hacc Hargs Hver Hroots Hstage.
  unfold run, doDoltCommit. autounfold with body.
  rewrite Hacc, Hargs. simpl. rewrite Hver, Hroots. simpl.
  destruct Hstage as [[-> ->]|(-> & -> & ->)]; reflexivity.
Qed.

End CommitMore.

(** * Properties of getDoltArgs *)

Section ArgsFacts.
Import sqlargs.
Context {Expression Row Value : Type}.

Variable ctx : @Collaborators Expression Row Value.

Abbreviation ArgsEvent := (@event Expression).

Lemma filled_slot (done : list string) (s : string) (n : nat) :
  <[length done:=s]> (done ++ replicate (S n) "") = (done ++ [s]) ++ replicate n "".
Proof.
  rewrite insert_app_r_alt by lia. rewrite Nat.sub_diag. simpl.
  by rewrite <- app_assoc.
Qed.

Lemma argsLoop_step (row : Row) child children (i : nat) (args : list string)
    (tr : list ArgsEvent) :
  argsLoop ctx row (child :: children) i args tr
  = match Eval_ ctx child row with
    | inl err => (inl (Returns None (Some (Ext err))), tr ++ [Eval_called child])
    | inr childVal =>
        match Convert ctx childVal with
        | inl err => (inl (Returns None (Some (Ext err))), tr ++ [Eval_called child])
        | inr (String_ s) =>
            argsLoop ctx row children (S i) (<[i:=s]> args) (tr ++ [Eval_called child])
        | inr NotString => (inl Panics, tr ++ [Eval_called child])
        end
    end.
Proof.
  simpl. autounfold with body.
  destruct (Eval_ ctx child row) as [e|v]; simpl; [done|].
  destruct (Convert ctx v) as [e|[s|]]; done.
Qed.

(** The loop fills the slots from [length done] on with the texts. *)
Lemma argsLoop_texts (row : Row) children ss (done : list string) (tr : list ArgsEvent) :
  Forall2 (text_of ctx row) children ss ->
  argsLoop ctx row children (length done) (done ++ replicate (length children) "") tr
  = (inr (done ++ ss), tr ++ map Eval_called children).
Proof.
  intros Htexts. revert done tr.
  induction Htexts as [|child s children ss (v & Hv & Hs) _ IH]; intros done tr.
  - simpl. unfold pure. by rewrite !app_nil_r.
  - rewrite argsLoop_step, Hv, Hs. simpl length. rewrite filled_slot.
    replace (S (length done)) with (length (done ++ [s]))
      by (rewrite length_app; simpl; lia).
    rewrite IH. simpl. by rewrite <- !app_assoc.
Qed.

(** What the loop has when it runs to its end are texts. *)
Lemma argsLoop_sound (row : Row) children (done args : list string)
    (tr tr' : list ArgsEvent) :
  argsLoop ctx row children (length done) (done ++ replicate (length children) "") tr
  = (inr args, tr') ->
  exists ss,
    Forall2 (text_of ctx row) children ss
    /\ args = done ++ ss
    /\ tr' = tr ++ map Eval_called children.
Proof.
  revert done tr. induction children as [|child children IH]; intros done tr Hrun.
  - simpl in Hrun. unfold pure in Hrun. simplify_eq. exists [].
    rewrite !app_nil_r. by split_and!; [constructor|..].
  - rewrite argsLoop_step in Hrun.
    destruct (Eval_ ctx child row) as [e|v] eqn:Hv; [done|].
    destruct (Convert ctx v) as [e|[s|]] eqn:Hs; [done| |done].
    simpl length in Hrun. rewrite filled_slot in Hrun.
    replace (S (length done)) with (length (done ++ [s])) in Hrun
      by (rewrite length_app; simpl; lia).
    destruct (IH _ _ Hrun) as (ss & Htexts & -> & ->).
    exists (s :: ss). split_and!.
    + constructor; [by exists v|done].
    + by rewrite <- app_assoc.
    + simpl. by rewrite <- app_assoc.
Qed.

(** The loop leaves early only with an error and a nil slice, or in a
    panic. *)
Lemma argsLoop_early (row : Row) children (i : nat) (args : list string) r
    (tr tr' : list ArgsEvent) :
  argsLoop ctx row children i args tr = (inl r, tr') ->
  r = Panics \/ exists err, r = Returns None (Some (Ext err)).
Proof.
  revert i args tr. induction children as [|child children IH]; intros i args tr Hrun.
  - done.
  - rewrite argsLoop_step in Hrun.
    destruct (Eval_ ctx child row) as [e|v]; [simplify_eq; by eauto|].
    destruct (Convert ctx v) as [e|[s|]]; [simplify_eq; by eauto| |simplify_eq; by eauto].
    by eapply IH.
Qed.


(** X19: when every expression evaluates and converts to a string,
    [getDoltArgs] returns these strings, one for each expression and in
    their order, and no error; each expression was evaluated once, in
    order. *)
Theorem getDoltArgs_texts (row : Row) children (ss : list string) :
  Forall2 (text_of ctx row) children ss ->
  run (getDoltArgs ctx row children) = (Returns (Some ss) None, map Eval_called children).
Proof.
  intros Htexts. unfold run, exec, getDoltArgs, bind, Return.
  pose proof (argsLoop_texts row children ss [] [] Htexts) as Hloop.
  simpl in Hloop. by rewrite Hloop.
Qed.


(** X21: a slice returned without an error holds the text of each
    expression, in order, so that it is as long as the list of expressions;
    and every expression was evaluated. *)
Theorem getDoltArgs_sound (row : Row) children (args : list string) err log :
  run (getDoltArgs ctx row children) = (Returns (Some args) err, log) ->
  err = None
  /\ Forall2 (text_of ctx row) children args
  /\ length args = length children
  /\ log = map Eval_called children.
Proof.
  unfold run, exec, getDoltArgs, bind, Return.
  destruct (argsLoop ctx row children 0 (replicate (length children) "") [])
    as [[r|args'] tr'] eqn:Hloop.
  - intros Hrun. simplify_eq.
    destruct (argsLoop_early _ _ _ _ _ _ _ Hloop) as [?|[e ?]]; done.
  - intros Hrun. simplify_eq.
    destruct (argsLoop_sound row children [] args [] log Hloop) as (ss & Htexts & -> & ->).
    split_and!; [done|done| |done].
    symmetry. by eapply Forall2_length.
Qed.


(** X23: [getDoltArgs] returns the nil slice exactly when it returns an
    error. *)
Theorem getDoltArgs_nil_iff_error (row : Row) children args err log :
  run (getDoltArgs ctx row children) = (Returns args err, log) ->
  args = None <-> err <> None.
Proof.
  unfold run, exec, getDoltArgs, bind, Return.
  destruct (argsLoop ctx row children 0 (replicate (length children) "") [])
    as [[r|args'] tr'] eqn:Hloop; intros Hrun; simplify_eq.
  - destruct (argsLoop_early _ _ _ _ _ _ _ Hloop) as [?|[e ?]]; simplify_eq. done.
  - split; [done|]. intros Hne. by destruct Hne.
Qed.

End ArgsFacts.

(** * The further properties on the example repositories and sessions *)

Section MoreRuns.
Import commands dprocedures sqlargs Examples.

Abbreviation main_repo := (repo "C3" "C2" (inr "C2") None None).
Abbreviation RepoEvent := (@commands.event string string string unit).

Lemma count_is_position_witness :
  exists pre, walks_to main_repo "C3" "C2" pre /\ 1%Z = Z.of_nat (length pre).
Proof.
  apply (count_is_position main_repo "C3" "C2"
           [Yield "C3"; Yield "C2"; Yield "C1"] 1 eq_refl).
  - by vm_compute.
  - reflexivity.
Defined.

Lemma walk_error_is_returned_witness :
  counted (repo_with main_repo ∅ ∅ broken_walk) "C3" "C1"
  = (0%Z, Some (Ext "chunk missing")).
Proof.
  apply (proj2 (walk_error_is_returned (repo_with main_repo ∅ ∅ broken_walk)
                  "C3" "C1" "chunk missing") ["C3"] [Yield "C1"]).
  - reflexivity.
  - apply not_elem_of_cons. split; [discriminate|apply not_elem_of_nil].
Defined.

(** [main] at [C3] tracking [origin/main] at [C2], and the two exchanged. *)
Lemma counters_swap_witness :
  run (printRemoteRefTrackingInfo main_repo)
  = (None,
     [GetCommitAncestor_called "C3" "C2";
      GetTopologicalOrderIterator_called "C2";
      GetTopologicalOrderIterator_called "C3"]
     ++ [Println (Lit (getRemoteTrackingMsg "origin/main" 1 0))])
  /\ exists tr2,
      run (printRemoteRefTrackingInfo (repo "C2" "C3" (inr "C2") None None))
      = (None, tr2 ++ [Println (Lit (getRemoteTrackingMsg "origin/main" 0 1))]).
Proof.
  apply (proj2 (counters_swap main_repo (repo "C2" "C3" (inr "C2") None None))
           "C3" "C3" "origin/main" "C2" "C2" "origin/main" "C2" "C2" "C2" 1%Z 0%Z
           [GetCommitAncestor_called "C3" "C2";
            GetTopologicalOrderIterator_called "C2";
            GetTopologicalOrderIterator_called "C3"]).
  - apply heads_at.
  - apply heads_at.
  - reflexivity.
  - reflexivity.
  - reflexivity.
  - reflexivity.
  - reflexivity.
  - reflexivity.
Defined.

Lemma upstream_walk_failure_stops_witness :
  aheadBehind main_repo "C3" "C1" "C2" []
  = (inl (Some (errors_New "no match found to ancestor commit")),
     [GetTopologicalOrderIterator_called "C1"]).
Proof.
  apply (upstream_walk_failure_stops main_repo "C3" "C1" "C2" 0).
  - discriminate.
  - reflexivity.
Defined.

Lemma untracked_branch_is_silent_witness :
  run (printRemoteRefTrackingInfo (repo_with main_repo ∅ ∅ walk_from)) = (None, [])
  /\ run (printRemoteRefTrackingInfo
            (repo_with main_repo
               {[ "main" := {| Merge := "refs/heads/main"; Remote_ := "origin" |} ]}
               ∅ walk_from))
     = (None, []).
Proof.
  split.
  - apply (proj1 (untracked_branch_is_silent (repo_with main_repo ∅ ∅ walk_from)
                    "main" ∅ eq_refl eq_refl)).
    reflexivity.
  - apply (proj2 (untracked_branch_is_silent
                    (repo_with main_repo
                       {[ "main" := {| Merge := "refs/heads/main"; Remote_ := "origin" |} ]}
                       ∅ walk_from)
                    "main" _ eq_refl eq_refl)
             {| Merge := "refs/heads/main"; Remote_ := "origin" |} ∅);
      reflexivity.
Defined.

Lemma tracking_prints_last_witness :
  Forall (fun e : RepoEvent => ~ is_output e)
    (run (printRemoteRefTrackingInfo (repo "C2" "C2" (inl "chunk store closed") None None))).2.
Proof.
  apply (proj1 (tracking_prints_last (repo "C2" "C2" (inl "chunk store closed") None None)
                  (Some (Ext "chunk store closed"))
                  (run (printRemoteRefTrackingInfo
                          (repo "C2" "C2" (inl "chunk store closed") None None))).2
                  ltac:(vm_compute; reflexivity))).
  discriminate.
Defined.

Lemma PrintStatus_success_witness :
  exists pre mergeActive n,
    isMergeActive main_repo = inr mergeActive
    /\ PrintDiffsNotStaged main_repo tt [] true false (printStagedDiffs main_repo [] true) tt
       = inr n
    /\ (exec (PrintStatus main_repo tt [] [] false tt) []).2
       = pre
         ++ [printStagedDiffs_called [] true;
             PrintDiffsNotStaged_called [] true false (printStagedDiffs main_repo [] true) tt]
         ++ (if negb mergeActive && bool_decide (n = 0%Z)
             then [Println (Lit "nothing to commit, working tree clean")]
             else []).
Proof.
  apply (PrintStatus_success main_repo tt [] [] false tt []).
  reflexivity.
Defined.

Lemma PrintStatus_error_witness :
  exists out,
    [Printf "On branch %s" ["main"]; GetCommitAncestor_called "C2" "C2"] = [] ++ out
    /\ (Forall (fun e : RepoEvent => ~ is_diff_printer e) out
        \/ exists e,
            PrintDiffsNotStaged (repo "C2" "C2" (inl "chunk store closed") None None)
              tt [] true false
              (printStagedDiffs (repo "C2" "C2" (inl "chunk store closed") None None) [] true)
              tt = inl e
            /\ Ext "chunk store closed" = Ext e).
Proof.
  apply (PrintStatus_error (repo "C2" "C2" (inl "chunk store closed") None None)
           tt [] [] false tt []).
  reflexivity.
Defined.

Lemma Exec_exit_codes_witness :
  (1%Z = 0%Z \/ 1%Z = 1%Z)
  /\ ((exists sqlCtx hasCloseFunc, QueryEngine main_repo = inr (sqlCtx, hasCloseFunc))
      /\ ParseArgsOrDie main_repo ["--verbose"] = inl 1%Z).
Proof.
  assert (Hfails : run (Exec (repo "C2" "C2" (inl "chunk store closed") None None)
                          "status" [])
                   = (Returned 1,
                      (run (Exec (repo "C2" "C2" (inl "chunk store closed") None None)
                              "status" [])).2))
    by (vm_compute; reflexivity).
  assert (Hexits : run (Exec main_repo "status" ["--verbose"])
                   = (Exited 1, (run (Exec main_repo "status" ["--verbose"])).2))
    by (vm_compute; reflexivity).
  split.
  - exact (Exec_exit_codes _ _ _ _ _ Hfails).
  - exact (Exec_exit_codes _ _ _ _ _ Hexits).
Defined.

Lemma closeFunc_runs_last_witness :
  exists body,
    Forall (fun e : RepoEvent => e <> closeFunc) body
    /\ (run (Exec main_repo "status" [])).2 = body ++ [closeFunc].
Proof.
  assert (Hrun : run (Exec main_repo "status" [])
                 = (Returned 0, (run (Exec main_repo "status" [])).2))
    by (vm_compute; reflexivity).
  exact (closeFunc_runs_last _ _ _ _ _ Hrun).
Defined.

(** ** The commit procedure *)

Abbreviation staging_session :=
  (session [("ALL", ""); ("all", ""); ("message", "m")] (inr None)).

(** With both [-A] and [-a] the roots are those of [StageAllTables]. *)
Lemma staged_roots_witness :
  Contains (parsed [("ALL", ""); ("all", ""); ("message", "m")]) "ALL" = true
  /\ StageAllTables staging_session "roots" true = inr "roots".
Proof.
  split; [reflexivity|].
  destruct (staged_roots staging_session ["-A"; "-a"; "-m"; "m"]
              (parsed [("ALL", ""); ("all", ""); ("message", "m")])
              "db" "roots" (props_of "m" false false "root" "root@localhost") eq_refl
              ltac:(vm_compute; constructor))
    as (roots0 & Hroots & Hupper & _).
  injection Hroots as <-. by apply Hupper.
Defined.

Lemma commit_date_and_flags_witness :
  Date (props_of "m" true false "root" "root@localhost") = 1000%Z
  /\ SkipEmpty (props_of "m" true false "root" "root@localhost") = true.
Proof.
  destruct (commit_date_and_flags
              (session [("skip-empty", ""); ("message", "m")] (inr None))
              ["--skip-empty"; "-m"; "m"] (parsed [("skip-empty", ""); ("message", "m")])
              "db" "roots" (props_of "m" true false "root" "root@localhost") eq_refl
              ltac:(vm_compute; constructor))
    as (_ & _ & Hdate & _ & Hskip & _).
  split; [by apply Hdate|exact Hskip].
Defined.

Lemma write_follows_pending_witness :
  exists roots props,
    NewPendingCommit (session [("message", "m")] (inr (Some "pc"))) "db" roots props
    = inr (Some "pc")
    /\ tt = GetTransaction (session [("message", "m")] (inr (Some "pc")))
    /\ (run (doDoltCommit (session [("message", "m")] (inr (Some "pc"))) ["-m"; "m"])).2
       = [NewPendingCommit_called "db" roots props; DoltCommit_called "db" tt "pc"].
Proof.
  apply (write_follows_pending (session [("message", "m")] (inr (Some "pc"))) ["-m"; "m"]).
  vm_compute. right. constructor.
Defined.

Lemma created_was_written_witness :
  exists roots props pendingCommit newCommit hash,
    NewPendingCommit (session [("message", "m")] (inr (Some "pc"))) "db" roots props
    = inr (Some pendingCommit)
    /\ DoltCommit (session [("message", "m")] (inr (Some "pc"))) "db" tt pendingCommit
       = inr newCommit
    /\ HashOf (session [("message", "m")] (inr (Some "pc"))) newCommit = inr hash
    /\ "C3" = HashString (session [("message", "m")] (inr (Some "pc"))) hash
    /\ (run (doDoltCommit (session [("message", "m")] (inr (Some "pc"))) ["-m"; "m"])).2
       = [NewPendingCommit_called "db" roots props; DoltCommit_called "db" tt pendingCommit].
Proof.
  apply (created_was_written (session [("message", "m")] (inr (Some "pc"))) ["-m"; "m"] "C3").
  reflexivity.
Defined.

Lemma skipped_only_when_empty_witness :
  exists apr roots props,
    Parse (session [("skip-empty", ""); ("message", "m")] (inr None))
      ["--skip-empty"; "-m"; "m"] = inr apr
    /\ Contains apr "skip-empty" = true
    /\ NewPendingCommit (session [("skip-empty", ""); ("message", "m")] (inr None))
         "db" roots props = inr None
    /\ (run (doDoltCommit (session [("skip-empty", ""); ("message", "m")] (inr None))
               ["--skip-empty"; "-m"; "m"])).2
       = [NewPendingCommit_called "db" roots props].
Proof.
  apply (skipped_only_when_empty
           (session [("skip-empty", ""); ("message", "m")] (inr None))
           ["--skip-empty"; "-m"; "m"] "" None).
  reflexivity.
Defined.

Abbreviation failing_session :=
  (session_with_failures (session [("message", "m")] (inr (Some "pc")))).

Lemma error_after_write_witness :
  (exists e, DoltCommit failing_session "db" tt "pc" = inl e /\ Ext "branch moved" = Ext e)
  \/ exists newCommit e,
      DoltCommit failing_session "db" tt "pc" = inr newCommit
      /\ HashOf failing_session newCommit = inl e
      /\ Ext "branch moved" = Ext e.
Proof.
  apply (error_after_write failing_session ["-m"; "m"] "" false (Ext "branch moved")
           "db" tt "pc" eq_refl).
  vm_compute. right. constructor.
Defined.

Lemma invalid_inputs_stop_early_witness :
  exists err,
    run (doDoltCommit (session [("date", "soon"); ("message", "m")] (inr (Some "pc")))
           ["--date"; "soon"; "-m"; "m"])
    = (("", false, Some err), []).
Proof.
  apply (invalid_inputs_stop_early
           (session [("date", "soon"); ("message", "m")] (inr (Some "pc")))
           ["--date"; "soon"; "-m"; "m"] (parsed [("date", "soon"); ("message", "m")])
           eq_refl).
  do 4 right. by exists "soon", "not a date".
Defined.

Lemma staging_error_is_reformatted_witness :
  run (doDoltCommit
         (session_with_failures (session [("ALL", ""); ("message", "m")] (inr (Some "pc"))))
         ["-A"; "-m"; "m"])
  = (("", false, Some (fmt_Errorf "table locked" [])), []).
Proof.
  apply (staging_error_is_reformatted
           (session_with_failures (session [("ALL", ""); ("message", "m")] (inr (Some "pc"))))
           ["-A"; "-m"; "m"] (parsed [("ALL", ""); ("message", "m")]) "roots" "table locked"
           eq_refl eq_refl eq_refl eq_refl).
  left. by split.
Defined.

(** ** getDoltArgs *)

Lemma texts_of_plain :
  Forall2 (text_of exprs tt) ["-m"; "fix bug"] ["-m"; "fix bug"].
Proof. repeat constructor; by eexists. Defined.

Lemma getDoltArgs_texts_witness :
  run (getDoltArgs exprs tt ["-m"; "fix bug"])
  = (Returns (Some ["-m"; "fix bug"]) None, [Eval_called "-m"; Eval_called "fix bug"]).
Proof.
  apply (getDoltArgs_texts exprs tt ["-m"; "fix bug"] ["-m"; "fix bug"] texts_of_plain).
Defined.


Lemma getDoltArgs_sound_witness :
  (None : option error) = None
  /\ Forall2 (text_of exprs tt) ["-m"; "fix bug"] ["-m"; "fix bug"]
  /\ length ["-m"; "fix bug"] = length ["-m"; "fix bug"]
  /\ [Eval_called "-m"; Eval_called "fix bug"] = map Eval_called ["-m"; "fix bug"].
Proof.
  apply (getDoltArgs_sound exprs tt ["-m"; "fix bug"] ["-m"; "fix bug"] None
           [Eval_called "-m"; Eval_called "fix bug"]).
  reflexivity.
Defined.


Lemma getDoltArgs_nil_iff_error_witness :
  (None : option (list string)) = None <-> Some (Ext "evaluation failed") <> None.
Proof.
  apply (getDoltArgs_nil_iff_error exprs tt ["boom"] None (Some (Ext "evaluation failed"))
           [Eval_called "boom"]).
  reflexivity.
Defined.

End MoreRuns.
